(** * The Cal.com API client of [app.py]: gateway and the seven operations

    A shallow embedding of [src/app.py].  Python values are the inductive
    type [value]; the operations are programs of a small state-and-exception
    monad [M] whose state holds the store of mutable dictionaries and the log
    of what happened (tool invocations and outbound HTTP requests).  The
    remote service and the environment variable read at import time are the
    two parameters of every program.

    Conventions of the model.
    - Strings are [string]s of ASCII text; [str.lower] is ASCII lower-casing.
    - [@tool] puts a [StructuredTool] where the function was.  The agent
      runs it with a dictionary of arguments of the declared types, which runs
      the function: an [Invoke] entry in the log is the trace of that.  The
      two places of [app.py] that call such an object like a function go
      through its [__call__], which validates one input against the schema of
      the arguments before anything runs ([call_tool]).
    - [json.dumps] yields a [json_text] and [json.loads] reads it back; the
      text itself is not spelled out, [loads (dumps v) = v].
    - [requests]' own [JSONDecodeError] is a [RequestException]
      (requests 2.27 and later); what else the decoder of [response.json()]
      raises ([ValueError], [RecursionError]) is not. *)

From Stdlib Require Import ZArith String Ascii List Bool DecimalString.
From stdpp Require Import base list strings.
Import ListNotations.
Local Open Scope string_scope.
Local Open Scope list_scope.
Local Open Scope Z_scope.
Set Warnings "-register-all,-abstract-large-number".

(** ** Python values *)

(** The values the program handles: what [response.json()] can build, and
    [None].  A number that is not an integer is kept as the two things this
    program can observe of it: whether it is non-zero (its truth value) and
    its printed form.  A [VDict] is an insertion-ordered list of entries; the
    first entry for a key is the one a lookup sees. *)
Inductive value : Type :=
| VNone
| VBool (b : bool)
| VInt (n : Z)
| VFloat (nonzero : bool) (printed : string)
| VStr (s : string)
| VList (xs : list value)
| VDict (kvs : list (string * value)).

Abbreviation pydict := (list (string * value)).

(** ** The wire *)

(** What [requests.request(method, url, params=, json=, headers=)] sends. *)
Record request : Type := {
  rq_method : string;
  rq_url : string;
  rq_params : pydict;
  rq_json : option value;
  rq_headers : list (string * string)
}.

(** What the decoder gives up on although the body is JSON: an integer of
    more digits than [int] converts (4300 by default), nesting deeper than
    the interpreter's stack allows. *)
Inductive decoder_fault : Type :=
| TooManyDigits
| TooDeep.

(** What [response.json()] does with the body: it returns the value of the
    JSON text, or the body is not JSON and it raises requests' own
    [JSONDecodeError] with a detail, or the decoder gives up. *)
Inductive decoding : Type :=
| Decoded (v : value)
| NotJSON (detail : string)
| GivesUp (f : decoder_fault).

(** What comes back: the status, the body text, and what [response.json()]
    does with the body. *)
Record response : Type := {
  status_code : Z;
  text : string;
  json_body : decoding
}.

(** Exceptions the modelled code can meet.  [DanglingReference] is not a
    Python exception: it is what the model answers for a reference outside
    the store, which no Python program can hold. *)
Inductive exn : Type :=
| AttributeError
| TypeError
| KeyError
| IndexError
| ValueError
| RecursionError
| ValidationError
| HTTPError (resp : option response)
| RequestException (detail : string)
| DanglingReference.

(** The exception of a decoder that gives up: neither is a
    [RequestException]. *)
Definition fault_exn (f : decoder_fault) : exn :=
  match f with
  | TooManyDigits => ValueError
  | TooDeep => RecursionError
  end.

Inductive outcome (A : Type) : Type :=
| Ok (a : A)
| Raise (e : exn).
Arguments Ok {A} a.
Arguments Raise {A} e.

(** *** Dictionaries *)

Fixpoint dict_lookup (k : string) (d : pydict) : option value :=
  match d with
  | [] => None
  | (k', v) :: d' => if String.eqb k k' then Some v else dict_lookup k d'
  end.

(** [d[k] = v]: overwrite in place, or append a new entry. *)
Fixpoint dict_setitem (k : string) (v : value) (d : pydict) : pydict :=
  match d with
  | [] => [(k, v)]
  | (k', v') :: d' =>
      if String.eqb k k' then (k', v) :: d' else (k', v') :: dict_setitem k v d'
  end.

(** [d.get(k, default)]. *)
Definition dict_get (k : string) (default : value) (d : pydict) : value :=
  match dict_lookup k d with
  | Some x => x
  | None => default
  end.

Definition dict_has (k : string) (d : pydict) : bool :=
  match dict_lookup k d with Some _ => true | None => false end.

(** *** Truth value, [in], [.get], iteration, subscript *)

(** [bool(v)]. *)
Definition truthy (v : value) : bool :=
  match v with
  | VNone => false
  | VBool b => b
  | VInt n => negb (n =? 0)
  | VFloat nz _ => nz
  | VStr s => negb (String.eqb s EmptyString)
  | VList xs => match xs with [] => false | _ => true end
  | VDict kvs => match kvs with [] => false | _ => true end
  end.

Fixpoint is_substring (needle s : string) : bool :=
  String.prefix needle s ||
  match s with
  | EmptyString => false
  | String _ s' => is_substring needle s'
  end.

Definition is_str (k : string) (v : value) : bool :=
  match v with VStr s => String.eqb s k | _ => false end.

(** [k in v] for a string [k]: key of a dict, element of a list, substring
    of a string; any other right operand is a [TypeError]. *)
Definition py_in (k : string) (v : value) : outcome bool :=
  match v with
  | VDict kvs => Ok (dict_has k kvs)
  | VList xs => Ok (existsb (is_str k) xs)
  | VStr s => Ok (is_substring k s)
  | _ => Raise TypeError
  end.

(** [v.get(k, default)]: only dictionaries have [.get]. *)
Definition py_get (v : value) (k : string) (default : value) : outcome value :=
  match v with
  | VDict kvs => Ok (dict_get k default kvs)
  | _ => Raise AttributeError
  end.

(** [v[k]] for a string key. *)
Definition py_getitem (v : value) (k : string) : outcome value :=
  match v with
  | VDict kvs => match dict_lookup k kvs with Some x => Ok x | None => Raise KeyError end
  | _ => Raise TypeError
  end.

Definition chars (s : string) : list value :=
  map (fun c => VStr (String c EmptyString)) (list_ascii_of_string s).

(** What [for x in v] ranges over. *)
Definition py_iter (v : value) : outcome (list value) :=
  match v with
  | VList xs => Ok xs
  | VDict kvs => Ok (map (fun kv => VStr (fst kv)) kvs)
  | VStr s => Ok (chars s)
  | _ => Raise TypeError
  end.

(** [v[0]]. *)
Definition py_first (v : value) : outcome value :=
  match v with
  | VList xs => match xs with x :: _ => Ok x | [] => Raise IndexError end
  | VStr s => match s with String c _ => Ok (VStr (String c EmptyString)) | EmptyString => Raise IndexError end
  | VDict _ => Raise KeyError
  | _ => Raise TypeError
  end.

(** [s.lower()] on ASCII text. *)
Definition lower_ascii (c : ascii) : ascii :=
  let n := nat_of_ascii c in
  if (65 <=? n)%nat && (n <=? 90)%nat then ascii_of_nat (n + 32) else c.

Fixpoint lower (s : string) : string :=
  match s with
  | EmptyString => EmptyString
  | String c s' => String (lower_ascii c) (lower s')
  end.

(** [v.lower()]: only strings have it. *)
Definition py_lower (v : value) : outcome string :=
  match v with
  | VStr s => Ok (lower s)
  | _ => Raise AttributeError
  end.

(** *** Printing: [str(v)] as an f-string renders it *)

(** [str(n)] for an integer. *)
Definition str_of_int (n : Z) : string := NilZero.string_of_int (Z.to_int n).

Definition hex_digit (n : nat) : ascii :=
  nth n (list_ascii_of_string "0123456789abcdef") "0"%char.

Definition backslash : ascii := "092"%char.
Definition double_quote : ascii := "034"%char.
Definition single_quote : ascii := "039"%char.

Definition escaped (c : ascii) : string := String backslash (String c EmptyString).

(** One character inside [repr] of a string delimited by [quote]. *)
Definition repr_char (quote : ascii) (c : ascii) : string :=
  let n := nat_of_ascii c in
  if Ascii.eqb c backslash then escaped backslash
  else if Ascii.eqb c quote then escaped c
  else if (n =? 9)%nat then escaped "t"%char
  else if (n =? 10)%nat then escaped "n"%char
  else if (n =? 13)%nat then escaped "r"%char
  else if (n <? 32)%nat || (n =? 127)%nat then
    String backslash (String "x"%char
      (String (hex_digit (n / 16)) (String (hex_digit (n mod 16)) EmptyString)))
  else String c EmptyString.

Fixpoint repr_chars (quote : ascii) (s : string) : string :=
  match s with
  | EmptyString => EmptyString
  | String c s' => repr_char quote c +:+ repr_chars quote s'
  end.

Fixpoint has_char (c : ascii) (s : string) : bool :=
  match s with
  | EmptyString => false
  | String c' s' => Ascii.eqb c c' || has_char c s'
  end.

(** [repr(s)]: single quotes, unless the text has a single quote and no
    double quote. *)
Definition repr_str (s : string) : string :=
  let quote :=
    if has_char single_quote s && negb (has_char double_quote s)
    then double_quote else single_quote in
  String quote (repr_chars quote s +:+ String quote EmptyString).

Fixpoint join (sep : string) (parts : list string) : string :=
  match parts with
  | [] => EmptyString
  | [p] => p
  | p :: rest => p +:+ sep +:+ join sep rest
  end.

Fixpoint py_repr (v : value) : string :=
  match v with
  | VNone => "None"
  | VBool true => "True"
  | VBool false => "False"
  | VInt n => str_of_int n
  | VFloat _ printed => printed
  | VStr s => repr_str s
  | VList xs => "[" +:+ join ", " (map py_repr xs) +:+ "]"
  | VDict kvs =>
      "{" +:+ join ", " (map (fun kv => repr_str (fst kv) +:+ ": " +:+ py_repr (snd kv)) kvs)
          +:+ "}"
  end.

(** [str(v)]: a string is itself, anything else prints as its [repr]. *)
Definition py_str (v : value) : string :=
  match v with
  | VStr s => s
  | _ => py_repr v
  end.

(** *** [datetime.strptime(s, '%Y-%m-%d').date()] and [date.isoformat()] *)

Record date : Type := { year : Z; month : Z; day : Z }.

Definition is_digit (c : ascii) : bool :=
  let n := nat_of_ascii c in (48 <=? n)%nat && (n <=? 57)%nat.

Definition is_digit_between (lo hi : nat) (c : ascii) : bool :=
  let n := nat_of_ascii c in (48 + lo <=? n)%nat && (n <=? 48 + hi)%nat.

Definition digit (c : ascii) : Z := Z.of_nat (nat_of_ascii c - 48).

(** [%Y] is four digits. *)
Definition match_year (s : list ascii) : option (Z * list ascii) :=
  match s with
  | a :: b :: c :: d :: rest =>
      if is_digit a && is_digit b && is_digit c && is_digit d
      then Some (1000 * digit a + 100 * digit b + 10 * digit c + digit d, rest)
      else None
  | _ => None
  end.

(** [%m] is [1[0-2]|0[1-9]|[1-9]]; here with the dash that follows it. *)
Definition match_month_dash (s : list ascii) : option (Z * list ascii) :=
  match s with
  | a :: "-"%char :: rest =>
      if is_digit_between 1 9 a then Some (digit a, rest) else None
  | a :: b :: "-"%char :: rest =>
      if (Ascii.eqb a "1" && is_digit_between 0 2 b) || (Ascii.eqb a "0" && is_digit_between 1 9 b)
      then Some (10 * digit a + digit b, rest)
      else None
  | _ => None
  end.

(** [%d] is [3[0-1]|[1-2]\d|0[1-9]|[1-9]| [1-9]], first alternative that
    matches. *)
Definition match_day (s : list ascii) : option (Z * list ascii) :=
  match s with
  | [] => None
  | a :: tl =>
      let two :=
        match tl with
        | b :: rest =>
            if (Ascii.eqb a "3" && is_digit_between 0 1 b)
               || (is_digit_between 1 2 a && is_digit b)
               || (Ascii.eqb a "0" && is_digit_between 1 9 b)
            then Some (10 * digit a + digit b, rest)
            else None
        | [] => None
        end in
      match two with
      | Some r => Some r
      | None =>
          if is_digit_between 1 9 a then Some (digit a, tl)
          else match tl with
               | b :: rest =>
                   if Ascii.eqb a " " && is_digit_between 1 9 b then Some (digit b, rest) else None
               | [] => None
               end
      end
  end.

Definition is_leap (y : Z) : bool :=
  ((y mod 4 =? 0) && negb (y mod 100 =? 0)) || (y mod 400 =? 0).

Definition days_in_month (y m : Z) : Z :=
  if m =? 2 then (if is_leap y then 29 else 28)
  else if (m =? 4) || (m =? 6) || (m =? 9) || (m =? 11) then 30
  else 31.

(** The whole text has to match, and the fields have to name a day of the
    calendar (years start at 1); anything else is a [ValueError]. *)
Definition strptime_ymd (s : string) : outcome date :=
  match match_year (list_ascii_of_string s) with
  | Some (y, "-"%char :: s1) =>
      match match_month_dash s1 with
      | Some (m, s2) =>
          match match_day s2 with
          | Some (d, []) =>
              if (1 <=? y) && (1 <=? d) && (d <=? days_in_month y m)
              then Ok {| year := y; month := m; day := d |}
              else Raise ValueError
          | _ => Raise ValueError
          end
      | None => Raise ValueError
      end
  | _ => Raise ValueError
  end.

Definition pad2 (n : Z) : string :=
  if n <? 10 then "0" +:+ str_of_int n else str_of_int n.

Definition pad4 (n : Z) : string :=
  if n <? 10 then "000" +:+ str_of_int n
  else if n <? 100 then "00" +:+ str_of_int n
  else if n <? 1000 then "0" +:+ str_of_int n
  else str_of_int n.

Definition isoformat (d : date) : string :=
  pad4 (year d) +:+ "-" +:+ pad2 (month d) +:+ "-" +:+ pad2 (day d).

(** *** [json.dumps] and [json.loads] *)

(** The text [json.dumps] produces, known by the value it encodes. *)
Inductive json_text : Type := dumps (v : value).

Definition loads (t : json_text) : value := match t with dumps v => v end.

(** ** Programs: a store, a log, exceptions *)

(** What a run leaves behind: a tool was entered with these arguments, or
    an HTTP request went out. *)
Inductive event : Type :=
| Invoke (tool_name : string) (args : list value)
| Http (rq : request).

(** The store holds the dictionaries a program has created, by reference;
    the log is in the order things happened. *)
Record state : Type := {
  heap : list pydict;
  log : list event
}.

Abbreviation loc := nat.

Definition M (A : Type) : Type := state -> outcome A * state.

Definition ret {A} (a : A) : M A := fun st => (Ok a, st).

Definition raise {A} (e : exn) : M A := fun st => (Raise e, st).

Definition bind {A B} (m : M A) (k : A -> M B) : M B :=
  fun st =>
    match m st with
    | (Ok a, st') => k a st'
    | (Raise e, st') => (Raise e, st')
    end.

Definition lift {A} (o : outcome A) : M A := fun st => (o, st).

(** [try: m  except ...: handler]; a handler answering [None] does not
    catch the exception. *)
Definition try_except {A} (m : M A) (handler : exn -> option (M A)) : M A :=
  fun st =>
    match m st with
    | (Ok a, st') => (Ok a, st')
    | (Raise e, st') =>
        match handler e with
        | Some h => h st'
        | None => (Raise e, st')
        end
    end.

Declare Scope prog_scope.
Delimit Scope prog_scope with prog.
Bind Scope prog_scope with M.
Notation "x <- m ;; k" := (bind m (fun x => k))
  (at level 100, m at next level, right associativity) : prog_scope.
Notation "m ;; k" := (bind m (fun _ => k))
  (at level 100, right associativity) : prog_scope.
Local Open Scope prog_scope.

Fixpoint mapM {A B} (f : A -> M B) (l : list A) : M (list B) :=
  match l with
  | [] => ret []
  | x :: rest => y <- f x ;; ys <- mapM f rest ;; ret (y :: ys)
  end.

Fixpoint filterM {A} (f : A -> M bool) (l : list A) : M (list A) :=
  match l with
  | [] => ret []
  | x :: rest => keep <- f x ;; ys <- filterM f rest ;; ret (if keep then x :: ys else ys)
  end.

(** A dictionary display [{...}] creates a dictionary and yields the
    reference to it. *)
Definition new_dict (d : pydict) : M loc :=
  fun st => (Ok (length (heap st)), {| heap := heap st ++ [d]; log := log st |}).

Definition read_dict (l : loc) : M pydict :=
  fun st =>
    match heap st !! l with
    | Some d => (Ok d, st)
    | None => (Raise DanglingReference, st)
    end.

(** [l[k] = v] on the dictionary that [l] refers to. *)
Definition setitem (l : loc) (k : string) (v : value) : M unit :=
  fun st =>
    match heap st !! l with
    | Some d => (Ok tt, {| heap := <[l := dict_setitem k v d]> (heap st); log := log st |})
    | None => (Raise DanglingReference, st)
    end.

Definition record (e : event) : M unit :=
  fun st => (Ok tt, {| heap := heap st; log := log st ++ [e] |}).

(** The requests that have gone out so far, oldest first. *)
Fixpoint requests_of (l : list event) : list request :=
  match l with
  | [] => []
  | Http rq :: rest => rq :: requests_of rest
  | Invoke _ _ :: rest => requests_of rest
  end.

(** The remote service as this process sees it: its answer to a request,
    given the requests that went out before it.  The answer is a response,
    or the detail of a transport failure. *)
Definition remote : Type := list request -> request -> response + string.

(** The [@tool] decorator, as the agent meets it: the tool is run with
    arguments of the declared types; entering the function is recorded, then
    the body runs. *)
Definition tool {A} (name : string) (args : list value) (body : M A) : M A :=
  record (Invoke name args) ;; body.

(** An input [__call__] hands on to the validation of the arguments one by
    one: a text (taken as the first argument) or a dictionary of arguments.
    Any other value fails [args_schema.model_validate] as a whole. *)
Definition accepted_input (tool_input : value) : bool :=
  match tool_input with
  | VStr _ | VDict _ => true
  | _ => false
  end.

(** The [@tool] decorator, as a caller inside [app.py] meets it: the name
    is bound to a [StructuredTool], and calling it like a function is
    [BaseTool.__call__(tool_input, callbacks=None)].  More than two
    positional arguments are a [TypeError]; the one input is validated
    against the schema of the tool's arguments before the function is run,
    and an input that is neither a text nor a dictionary is refused with
    pydantic's [ValidationError].  [func] is the decorated function run on
    an input that passes; no call in [app.py] passes such an input. *)
Definition call_tool {A} (positional : list value) (func : M A) : M A :=
  match positional with
  | [tool_input] | [tool_input; _] =>
      if accepted_input tool_input then func else raise ValidationError
  | _ => raise TypeError
  end.

(** ** The program of [app.py] *)

Definition CAL_API_BASE_URL : string := "https://api.cal.com/v1/".

Definition streamlit_key_message : string :=
  "Cal.com API Key is not set. Please set it in the Streamlit UI.".

Definition dotenv_key_message : string :=
  "Cal.com API Key is not set in environment variables. Please set CAL_API_KEY in your .env file.".

Definition error_envelope (msg : string) : value := VDict [("error", VStr msg)].

Section App.

(** [os.getenv("CAL_API_KEY")] at import time, and the service. *)
Variable getenv_CAL_API_KEY : option string.
Variable service : remote.

Definition CAL_API_KEY_ENV : value :=
  match getenv_CAL_API_KEY with
  | Some k => VStr k
  | None => VNone
  end.

Definition _get_cal_api_key : value := CAL_API_KEY_ENV.

(** [requests.request(method, url, params=params, json=json_data,
    headers=headers)]: the request carries the entries [params] has now. *)
Definition requests_request (method url : string) (params : loc)
    (json_data : option value) (headers : list (string * string)) : M response :=
  d <- read_dict params ;;
  let rq := {| rq_method := method; rq_url := url; rq_params := d;
               rq_json := json_data; rq_headers := headers |} in
  fun st =>
    let st' := {| heap := heap st; log := log st ++ [Http rq] |} in
    match service (requests_of (log st)) rq with
    | inl r => (Ok r, st')
    | inr detail => (Raise (RequestException detail), st')
    end.

(** [response.raise_for_status()]: statuses 400 to 599 raise. *)
Definition raise_for_status (r : response) : M unit :=
  if (400 <=? status_code r) && (status_code r <? 600)
  then raise (HTTPError (Some r))
  else ret tt.

(** [response.json()]. *)
Definition response_json (r : response) : M value :=
  match json_body r with
  | Decoded v => ret v
  | NotJSON detail => raise (RequestException detail)
  | GivesUp f => raise (fault_exn f)
  end.

Definition _make_cal_request (endpoint method : string) (params : option loc)
    (json_data : option value) : M value :=
  let api_key := _get_cal_api_key in
  if negb (truthy api_key) then ret (error_envelope streamlit_key_message)
  else
    params <- match params with
              | None => new_dict []
              | Some l => ret l
              end ;;
    setitem params "apiKey" api_key ;;
    let url := CAL_API_BASE_URL +:+ endpoint in
    let headers := [("Content-Type", "application/json")] in
    try_except
      (response <- requests_request method url params json_data headers ;;
       raise_for_status response ;;
       if status_code response =? 204
       then ret (VDict [("message", VStr "Operation successful, no content returned.")])
       else response_json response)
      (fun e =>
         match e with
         | HTTPError resp =>
             Some (match resp with
                   | Some r =>
                       ret (error_envelope
                              ("HTTP error: " +:+ str_of_int (status_code r) +:+ " - " +:+ text r))
                   | None => raise AttributeError
                   end)
         | RequestException detail => Some (ret (error_envelope ("Request error: " +:+ detail)))
         | _ => None
         end).

Definition list_event_types : M json_text :=
  tool "list_event_types" []
    (let api_key := _get_cal_api_key in
     if negb (truthy api_key) then ret (dumps (error_envelope streamlit_key_message))
     else
       response <- _make_cal_request "event-types" "GET" None None ;;
       has_error <- lift (py_in "error" response) ;;
       if has_error then ret (dumps response)
       else
         event_types <- lift (py_get response "eventTypes" (VList [])) ;;
         ets <- lift (py_iter event_types) ;;
         event_types_summary <-
           mapM (fun et =>
                   id_ <- lift (py_get et "id" VNone) ;;
                   title <- lift (py_get et "title" VNone) ;;
                   slug <- lift (py_get et "slug" VNone) ;;
                   ret (VDict [("id", id_); ("title", title); ("slug", slug)])) ets ;;
         ret (dumps (VDict [("eventTypes", VList event_types_summary)]))).

Definition invalid_date_message : string :=
  "Invalid date format for start_date_str or end_date_str. Please use YYYY-MM-DD.".

Definition get_available_slots (event_type_slug start_date_str end_date_str : string)
    : M json_text :=
  tool "get_available_slots" [VStr event_type_slug; VStr start_date_str; VStr end_date_str]
    (let api_key := _get_cal_api_key in
     if negb (truthy api_key) then ret (dumps (error_envelope streamlit_key_message))
     else
       parsed <-
         try_except
           (start_date <- lift (strptime_ymd start_date_str) ;;
            end_date <- lift (strptime_ymd end_date_str) ;;
            ret (inr (start_date, end_date)))
           (fun e =>
              match e with
              | ValueError => Some (ret (inl (dumps (error_envelope invalid_date_message))))
              | _ => None
              end) ;;
       match parsed with
       | inl returned => ret returned
       | inr (start_date, end_date) =>
           params <- new_dict [("eventType", VStr event_type_slug);
                               ("startDate", VStr (isoformat start_date));
                               ("endDate", VStr (isoformat end_date))] ;;
           response <- _make_cal_request "slots" "GET" (Some params) None ;;
           ret (dumps response)
       end).

Definition book_payload (event_type_id : value) (start_time_iso end_time_iso : string)
    (email name title description : value) : value :=
  VDict [("eventTypeId", event_type_id);
         ("start", VStr start_time_iso);
         ("end", VStr end_time_iso);
         ("timeZone", VStr "America/Los_Angeles");
         ("responses", VDict [("email", email);
                              ("name", name);
                              ("metadata", VDict []);
                              ("location", VStr "integrations:cal")]);
         ("metadata", VDict [("title", title); ("description", description)]);
         ("language", VStr "en")].

Definition book_cal_event (event_type_id : value) (start_time_iso end_time_iso : string)
    (email name title description : value) : M json_text :=
  tool "book_cal_event"
    [event_type_id; VStr start_time_iso; VStr end_time_iso; email; name; title; description]
    (let api_key := _get_cal_api_key in
     if negb (truthy api_key) then ret (dumps (error_envelope streamlit_key_message))
     else
       let payload :=
         book_payload event_type_id start_time_iso end_time_iso email name title description in
       response <- _make_cal_request "bookings" "POST" None (Some payload) ;;
       ret (dumps response)).

(** The inner loop of [list_cal_events]: does some attendee carry the
    e-mail?  Stops at the first one that does ([break]). *)
Fixpoint some_attendee_matches (email : string) (attendees : list value) : M bool :=
  match attendees with
  | [] => ret false
  | attendee :: rest =>
      e <- lift (py_get attendee "email" (VStr EmptyString)) ;;
      l <- lift (py_lower e) ;;
      if String.eqb l (lower email) then ret true
      else some_attendee_matches email rest
  end.

(** One entry of [summarized_bookings]. *)
Definition summarize_booking (booking : value) : M value :=
  start_time <- lift (py_get booking "startTime" VNone) ;;
  end_time <- lift (py_get booking "endTime" VNone) ;;
  title <- lift (py_get booking "title" VNone) ;;
  description <- lift (py_get booking "description" VNone) ;;
  id_ <- lift (py_get booking "id" VNone) ;;
  attendees <- lift (py_get booking "attendees" (VList [])) ;;
  attendees <- lift (py_iter attendees) ;;
  with_email <- filterM (fun a => e <- lift (py_get a "email" VNone) ;; ret (truthy e)) attendees ;;
  attendee_emails <- mapM (fun a => lift (py_get a "email" VNone)) with_email ;;
  ret (VDict [("id", id_);
              ("title", title);
              ("description", description);
              ("startTime", start_time);
              ("endTime", end_time);
              ("attendees", VList attendee_emails)]).

Definition option_str (s : option string) : value :=
  match s with
  | Some s => VStr s
  | None => VNone
  end.

Definition list_cal_events (email : option string) : M json_text :=
  tool "list_cal_events" [option_str email]
    (let api_key := _get_cal_api_key in
     if negb (truthy api_key) then ret (dumps (error_envelope streamlit_key_message))
     else
       response <- _make_cal_request "bookings" "GET" None None ;;
       has_error <- lift (py_in "error" response) ;;
       if has_error then ret (dumps response)
       else
         bookings <- lift (py_get response "bookings" (VList [])) ;;
         filtered_bookings <-
           match email with
           | Some e =>
               if truthy (VStr e) then
                 bs <- lift (py_iter bookings) ;;
                 kept <- filterM (fun booking =>
                                    attendees <- lift (py_get booking "attendees" (VList [])) ;;
                                    attendees <- lift (py_iter attendees) ;;
                                    some_attendee_matches e attendees) bs ;;
                 ret (VList kept)
               else ret bookings
           | None => ret bookings
           end ;;
         bs <- lift (py_iter filtered_bookings) ;;
         summarized_bookings <- mapM summarize_booking bs ;;
         ret (dumps (VDict [("bookings", VList summarized_bookings)]))).

Definition cancel_cal_event (booking_id : Z) : M json_text :=
  tool "cancel_cal_event" [VInt booking_id]
    (let api_key := _get_cal_api_key in
     if negb (truthy api_key) then ret (dumps (error_envelope streamlit_key_message))
     else
       response <- _make_cal_request ("bookings/" +:+ str_of_int booking_id) "DELETE" None None ;;
       has_error <- lift (py_in "error" response) ;;
       if has_error then ret (dumps response)
       else
         ret (dumps (VDict [("status", VStr "success");
                            ("message", VStr ("Event with ID " +:+ str_of_int booking_id
                                              +:+ " cancelled successfully."))]))).

Definition fetch_failed_message (booking_id : Z) : string :=
  "Could not fetch full details for event with ID " +:+ str_of_int booking_id
  +:+ " for rescheduling.".

Definition missing_information_message : string :=
  "Missing crucial information (event type ID, attendee email, or attendee name) from original booking to reschedule.".

Definition cancel_failed_message (booking_id : Z) (detail : value) : string :=
  "Failed to cancel old event with ID " +:+ str_of_int booking_id
  +:+ " during reschedule: " +:+ py_str detail.

Definition rebook_failed_message (detail : value) : string :=
  "Event cancelled, but failed to book new event during reschedule: " +:+ py_str detail
  +:+ ". Please try booking a new event manually.".

(** [b.get("attendees")[0].get(field) if b.get("attendees") else None]. *)
Definition first_attendee (full_booking_details : value) (field : string) : M value :=
  attendees <- lift (py_get full_booking_details "attendees" VNone) ;;
  if truthy attendees then
    attendees <- lift (py_get full_booking_details "attendees" VNone) ;;
    first <- lift (py_first attendees) ;;
    lift (py_get first field VNone)
  else ret VNone.

Definition reschedule_cal_event (booking_id : Z) (new_start_time_iso new_end_time_iso : string)
    : M json_text :=
  tool "reschedule_cal_event" [VInt booking_id; VStr new_start_time_iso; VStr new_end_time_iso]
    (let api_key := _get_cal_api_key in
     if negb (truthy api_key) then ret (dumps (error_envelope streamlit_key_message))
     else
       single_booking_response <-
         _make_cal_request ("bookings/" +:+ str_of_int booking_id) "GET" None None ;;
       has_error <- lift (py_in "error" single_booking_response) ;;
       no_booking <-
         (if has_error then ret true
          else b <- lift (py_get single_booking_response "booking" VNone) ;;
               ret (negb (truthy b))) ;;
       if no_booking then ret (dumps (error_envelope (fetch_failed_message booking_id)))
       else
         full_booking_details <- lift (py_getitem single_booking_response "booking") ;;
         event_type_id <- lift (py_get full_booking_details "eventTypeId" VNone) ;;
         attendee_email <- first_attendee full_booking_details "email" ;;
         attendee_name <- first_attendee full_booking_details "name" ;;
         if negb (truthy event_type_id) || negb (truthy attendee_email)
            || negb (truthy attendee_name)
         then ret (dumps (error_envelope missing_information_message))
         else
           title <- lift (py_get full_booking_details "title" VNone) ;;
           description <- lift (py_get full_booking_details "description" (VStr EmptyString)) ;;
           cancel_text <- call_tool [VInt booking_id] (cancel_cal_event booking_id) ;;
           let cancel_status := loads cancel_text in
           status <- lift (py_get cancel_status "status" VNone) ;;
           if negb (is_str "success" status) then
             detail <- lift (py_get cancel_status "message" (VStr "Unknown error")) ;;
             ret (dumps (error_envelope (cancel_failed_message booking_id detail)))
           else
             book_text <-
               call_tool [event_type_id; VStr new_start_time_iso; VStr new_end_time_iso;
                          attendee_email; attendee_name; title; description]
                 (book_cal_event event_type_id new_start_time_iso new_end_time_iso
                                 attendee_email attendee_name title description) ;;
             let new_booking_response := loads book_text in
             has_error <- lift (py_in "error" new_booking_response) ;;
             if has_error then
               detail <- lift (py_get new_booking_response "error" (VStr "Unknown error")) ;;
               ret (dumps (error_envelope (rebook_failed_message detail)))
             else
               ret (dumps (VDict [("status", VStr "success");
                                  ("message", VStr ("Event " +:+ str_of_int booking_id
                                                    +:+ " successfully rescheduled."));
                                  ("new_booking", new_booking_response)]))).

Definition create_cal_event_type (title slug : string) (length : Z) (description : string)
    (hidden : bool) : M json_text :=
  tool "create_cal_event_type"
    [VStr title; VStr slug; VInt length; VStr description; VBool hidden]
    (let api_key := _get_cal_api_key in
     if negb (truthy api_key) then ret (dumps (error_envelope dotenv_key_message))
     else
       let payload := VDict [("title", VStr title);
                             ("slug", VStr slug);
                             ("length", VInt length);
                             ("description", VStr description);
                             ("hidden", VBool hidden)] in
       response <- _make_cal_request "event-types" "POST" None (Some payload) ;;
       ret (dumps response)).

End App.

(** ** Vocabulary of the statements *)

(** A run starts with whatever dictionaries exist already and an empty
    log. *)
Definition initial (h : list pydict) : state := {| heap := h; log := [] |}.

(** The request [_make_cal_request] sends when it is given no [params]. *)
Definition api_request (key method endpoint : string) (json_data : option value) : request :=
  {| rq_method := method;
     rq_url := CAL_API_BASE_URL +:+ endpoint;
     rq_params := [("apiKey", VStr key)];
     rq_json := json_data;
     rq_headers := [("Content-Type", "application/json")] |}.

(** What the gateway makes of the service's answer (lines 34 to 46): a
    value to return, or the exception of a decoder that gave up, which no
    handler of the gateway catches. *)
Definition normalize (answer : response + string) : outcome value :=
  match answer with
  | inr detail => Ok (error_envelope ("Request error: " +:+ detail))
  | inl r =>
      if (400 <=? status_code r) && (status_code r <? 600)
      then Ok (error_envelope
                 ("HTTP error: " +:+ str_of_int (status_code r) +:+ " - " +:+ text r))
      else if status_code r =? 204
      then Ok (VDict [("message", VStr "Operation successful, no content returned.")])
      else match json_body r with
           | Decoded v => Ok v
           | NotJSON detail => Ok (error_envelope ("Request error: " +:+ detail))
           | GivesUp f => Raise (fault_exn f)
           end
  end.

(** The JSON text of a returned value, the exception of a raised one: what
    an operation that hands the gateway's answer on makes of it. *)
Definition passed_on (answer : outcome value) : outcome json_text :=
  match answer with
  | Ok v => Ok (dumps v)
  | Raise e => Raise e
  end.

(** The credential is present when the variable is set to a non-empty
    text: that is what [if not api_key] tests. *)
Definition credential_present (env : option string) : bool := truthy (option_str env).

(** The seven operations, each with its arguments. *)
Inductive operation : Type :=
| ListEventTypes
| GetAvailableSlots (event_type_slug start_date_str end_date_str : string)
| BookCalEvent (event_type_id : value) (start_time_iso end_time_iso : string)
               (email name title description : value)
| ListCalEvents (email : option string)
| CancelCalEvent (booking_id : Z)
| RescheduleCalEvent (booking_id : Z) (new_start_time_iso new_end_time_iso : string)
| CreateCalEventType (title slug : string) (length : Z) (description : string) (hidden : bool).

Definition run_operation (env : option string) (service : remote) (op : operation)
    : M json_text :=
  match op with
  | ListEventTypes => list_event_types env service
  | GetAvailableSlots slug s e => get_available_slots env service slug s e
  | BookCalEvent i s e email name title description =>
      book_cal_event env service i s e email name title description
  | ListCalEvents email => list_cal_events env service email
  | CancelCalEvent i => cancel_cal_event env service i
  | RescheduleCalEvent i s e => reschedule_cal_event env service i s e
  | CreateCalEventType title slug len description hidden =>
      create_cal_event_type env service title slug len description hidden
  end.

(** The text each operation puts in its configuration-error envelope. *)
Definition configuration_message (op : operation) : string :=
  match op with
  | CreateCalEventType _ _ _ _ _ => dotenv_key_message
  | _ => streamlit_key_message
  end.

Definition invokes (name : string) (e : event) : bool :=
  match e with Invoke n _ => String.eqb n name | Http _ => false end.

(** A service that scripts its answers by the number of requests seen. *)
Definition scripted (answers : list (response + string)) : remote :=
  fun history _ => nth (length history) answers (inr "connection refused").

Definition json_response (status : Z) (v : value) : response + string :=
  inl {| status_code := status; text := EmptyString; json_body := Decoded v |}.

Definition text_response (status : Z) (body : string) : response + string :=
  inl {| status_code := status; text := body; json_body := NotJSON "Expecting value" |}.

(** *** The listing of bookings, as the specification words it *)

(** A booking as the data model has it: an object whose [attendees], when
    present, is a sequence of objects whose [email], when present, is a
    text. *)
Definition well_formed_attendee (a : value) : bool :=
  match a with
  | VDict kvs =>
      match dict_lookup "email" kvs with
      | Some (VStr _) | None => true
      | Some _ => false
      end
  | _ => false
  end.

Definition well_formed_booking (b : value) : bool :=
  match b with
  | VDict kvs =>
      match dict_lookup "attendees" kvs with
      | Some (VList atts) => forallb well_formed_attendee atts
      | None => true
      | Some _ => false
      end
  | _ => false
  end.

Definition field (k : string) (v : value) : value :=
  match v with
  | VDict kvs => dict_get k VNone kvs
  | _ => VNone
  end.

Definition attendees_of (b : value) : list value :=
  match field "attendees" b with
  | VList atts => atts
  | _ => []
  end.

(** The attendee's e-mail equals [email], letter case apart. *)
Definition attendee_has_email (email : string) (a : value) : bool :=
  match field "email" a with
  | VStr s => String.eqb (lower s) (lower email)
  | _ => false
  end.

Definition booking_matches (email : string) (b : value) : bool :=
  existsb (attendee_has_email email) (attendees_of b).

(** The fixed projection of a booking. *)
Definition projection (b : value) : value :=
  VDict [("id", field "id" b);
         ("title", field "title" b);
         ("description", field "description" b);
         ("startTime", field "startTime" b);
         ("endTime", field "endTime" b);
         ("attendees",
          VList (List.filter truthy (map (field "email") (attendees_of b))))].

(** *** Outcomes of the steps of a reschedule *)

(** The gateway's answer is an [{error: ...}] envelope. *)
Definition is_error_envelope (v : value) : bool :=
  match v with
  | VDict kvs => dict_has "error" kvs
  | _ => false
  end.

(** The answer is an object that carries no booking: the entry is absent,
    null, or otherwise empty. *)
Definition lacks_booking (v : value) : bool :=
  match v with
  | VDict kvs => negb (truthy (dict_get "booking" VNone kvs))
  | _ => false
  end.

(** The attendees of a fetched booking are absent or empty, or they are a
    sequence whose first element is an object. *)
Definition attendees_readable (booking : pydict) : bool :=
  match dict_lookup "attendees" booking with
  | None => true
  | Some v =>
      if truthy v
      then match v with
           | VList (VDict _ :: _) => true
           | _ => false
           end
      else true
  end.

(** The text parses with [strptime] under ['%Y-%m-%d']. *)
Definition parses (s : string) : bool :=
  match strptime_ymd s with
  | Ok _ => true
  | Raise _ => false
  end.

Definition reschedule_invocation (booking_id : Z) (new_start new_end : string) : event :=
  Invoke "reschedule_cal_event" [VInt booking_id; VStr new_start; VStr new_end].

Definition cancel_invocation (booking_id : Z) : event :=
  Invoke "cancel_cal_event" [VInt booking_id].

Definition book_invocation (event_type_id : value) (start_time end_time : string)
    (email name title description : value) : event :=
  Invoke "book_cal_event"
    [event_type_id; VStr start_time; VStr end_time; email; name; title; description].

(** *** Fixtures: the booking of the specification's examples *)

Definition alice : value :=
  VDict [("email", VStr "a@b.com"); ("name", VStr "Alice")].

Definition sync_booking : pydict :=
  [("id", VInt 42); ("eventTypeId", VInt 5); ("title", VStr "Sync");
   ("attendees", VList [alice])].

Definition fetched_sync : pydict := [("booking", VDict sync_booking)].

(** A service that is never reached. *)
Definition no_service : remote := scripted [].

(** The booking is fetched, then the DELETE is refused with a 404. *)
Definition cancel_refused : remote :=
  scripted [json_response 200 (VDict fetched_sync);
            text_response 404 "Booking not found"].

(** The listing holds one booking whose only attendee has a null e-mail. *)
Definition null_email_listing : remote :=
  scripted [json_response 200
              (VDict [("bookings",
                       VList [VDict [("id", VInt 1);
                                     ("attendees",
                                      VList [VDict [("email", VNone);
                                                    ("name", VStr "Bob")]])]])])].

(** The listing holds the booking of Alice. *)
Definition sync_listing : remote :=
  scripted [json_response 200 (VDict [("bookings", VList [VDict sync_booking])])].

(** The three calls of a reschedule all succeed. *)
Definition rescheduling_accepted : remote :=
  scripted [json_response 200 (VDict fetched_sync);
            json_response 200 (VDict [("message", VStr "Booking cancelled")]);
            json_response 200 (VDict [("id", VInt 43); ("title", VStr "Sync")])].

(** Fetch and cancel succeed, the POST is refused with a 409. *)
Definition rebooking_refused : remote :=
  scripted [json_response 200 (VDict fetched_sync);
            json_response 200 (VDict [("message", VStr "Booking cancelled")]);
            text_response 409 "Slot taken"].

(** The booking does not exist. *)
Definition booking_not_found : remote :=
  scripted [text_response 404 "Not found"].


(** The fetched booking has event type 0. *)
Definition zero_event_type_booking : pydict :=
  [("id", VInt 42); ("eventTypeId", VInt 0); ("title", VStr "Sync");
   ("attendees", VList [alice])].

Definition zero_event_type_fetched : remote :=
  scripted [json_response 200 (VDict [("booking", VDict zero_event_type_booking)])].

(** *** What the operations leave behind *)

(** A request is in order when it goes to the service's base URL, says it
    carries JSON, and has the credential as its [apiKey] parameter. *)
Definition in_order (env : option string) (rq : request) : Prop :=
  String.prefix CAL_API_BASE_URL (rq_url rq) = true
  /\ rq_headers rq = [("Content-Type", "application/json")]
  /\ dict_lookup "apiKey" (rq_params rq) = Some (CAL_API_KEY_ENV env).

(** A program that leaves the state as it found it. *)
Definition pure {A} (m : M A) : Prop := forall st, snd (m st) = st.

(** The answer is a JSON value on which [in] is not defined: null, a
    boolean or a number. *)
Definition is_scalar (v : value) : bool :=
  match v with
  | VNone | VBool _ | VInt _ | VFloat _ _ => true
  | VStr _ | VList _ | VDict _ => false
  end.

Definition is_object (v : value) : bool :=
  match v with
  | VDict _ => true
  | _ => false
  end.

(** The fixed projection of an event type. *)
Definition event_type_summary (et : value) : value :=
  VDict [("id", field "id" et); ("title", field "title" et); ("slug", field "slug" et)].

(** A day of the calendar [datetime.date] can hold. *)
Definition calendar_date (d : date) : Prop :=
  1 <= year d <= 9999 /\ 1 <= month d <= 12 /\ 1 <= day d <= days_in_month (year d) (month d).

(** The query parameters [get_available_slots] builds, credential
    included. *)
Definition slots_params (key event_type_slug : string) (start_date end_date : date) : pydict :=
  [("eventType", VStr event_type_slug);
   ("startDate", VStr (isoformat start_date));
   ("endDate", VStr (isoformat end_date));
   ("apiKey", VStr key)].

Definition slots_request (key event_type_slug : string) (start_date end_date : date) : request :=
  {| rq_method := "GET";
     rq_url := CAL_API_BASE_URL +:+ "slots";
     rq_params := slots_params key event_type_slug start_date end_date;
     rq_json := None;
     rq_headers := [("Content-Type", "application/json")] |}.

Definition create_payload (title slug : string) (length : Z) (description : string)
    (hidden : bool) : value :=
  VDict [("title", VStr title);
         ("slug", VStr slug);
         ("length", VInt length);
         ("description", VStr description);
         ("hidden", VBool hidden)].



(** ** The page of [streamlit.py] *)

(** The page is a script that Streamlit runs from the top on every
    interaction; what lasts between runs is [st.session_state.messages].  The
    model keeps the parts that decide what the operations of [app.py] get to
    see: the two readings of [CAL_API_KEY] and the handling of one chat
    input.  The agent is a parameter: what [agent_executor.invoke] puts under
    [output], or the text of the exception that leaves the [try] block. *)

Inductive message : Type :=
| HumanMessage (content : string)
| AIMessage (content : string).

(** What the page shows: the call ([markdown], [warning], [error]), the
    chat role it is shown under, and the text. *)
Record widget : Type := {
  shown_by : string;
  shown_as : string;
  shown_text : string
}.

(** [load_dotenv()], for the one variable: the entry of the [.env] file is
    put into the environment unless the environment has the variable
    already. *)
Definition load_dotenv (environ dotenv : option string) : option string :=
  match environ with
  | Some v => Some v
  | None => dotenv
  end.

(** The two readings of the variable when the page starts: [import app]
    (line 11) runs [app.py], whose line 11 reads the environment; then
    [load_dotenv()] (line 13); then the page's own reading (line 17). *)
Record readings : Type := {
  app_CAL_API_KEY_ENV : option string;
  page_CAL_API_KEY : option string
}.

Definition page_start (environ dotenv : option string) : readings :=
  let app_reading := environ in
  let environ := load_dotenv environ dotenv in
  {| app_CAL_API_KEY_ENV := app_reading; page_CAL_API_KEY := environ |}.

(** Lines 41 to 44. *)
Definition first_messages : list message :=
  [AIMessage "Hello! I am your Cal.com assistant. How can I help you manage your events?"].

Definition missing_key_reply : string :=
  "Please set your Cal.com API key in the .env file to proceed.".

Definition agent_error_reply (e : string) : string :=
  "An error occurred while processing your request: " +:+ e
  +:+ ". Please try again or rephrase your request.".

Section Page.

Variable CAL_API_KEY : option string.
Variable agent : list message -> string + string.

(** Lines 97 to 116: one chat input.  An empty input is no input. *)
Definition chat_turn (messages : list message) (user_query : option string)
    : list message * list widget :=
  if truthy (option_str user_query) then
    let query := py_str (option_str user_query) in
    let messages := messages ++ [HumanMessage query] in
    let shown := [{| shown_by := "markdown"; shown_as := "user"; shown_text := query |}] in
    if negb (truthy (option_str CAL_API_KEY)) then
      (messages ++ [AIMessage missing_key_reply],
       shown ++ [{| shown_by := "warning"; shown_as := "assistant";
                    shown_text := missing_key_reply |}])
    else
      match agent messages with
      | inl ai_response_content =>
          (messages ++ [AIMessage ai_response_content],
           shown ++ [{| shown_by := "markdown"; shown_as := "assistant";
                        shown_text := ai_response_content |}])
      | inr e =>
          let error_message := agent_error_reply e in
          (messages ++ [AIMessage error_message],
           shown ++ [{| shown_by := "error"; shown_as := "assistant";
                        shown_text := error_message |}])
      end
  else (messages, []).

(** The conversation after a series of inputs, from the greeting on. *)
Definition conversation (queries : list (option string)) : list message :=
  fold_left (fun messages query => fst (chat_turn messages query)) queries first_messages.

End Page.

Definition is_human (m : message) : bool :=
  match m with HumanMessage _ => true | AIMessage _ => false end.

(** The assistant speaks first, then the user and the assistant take turns. *)
Fixpoint takes_turns (assistant_next : bool) (messages : list message) : bool :=
  match messages with
  | [] => true
  | m :: rest => Bool.eqb (is_human m) (negb assistant_next) && takes_turns (negb assistant_next) rest
  end.

(** * Properties *)

(** ** Basic facts *)

Lemma truthy_str (k : string) : k <> EmptyString -> truthy (VStr k) = true.
Proof.
  intros Hk. simpl. apply negb_true_iff. now apply String.eqb_neq.
Qed.

Lemma dict_lookup_truthy (k : string) (d : pydict) (v : value) :
  dict_lookup k d = Some v -> truthy (VDict d) = true.
Proof. destruct d; [discriminate | reflexivity]. Qed.

Lemma dict_setitem_other (k k' : string) (v : value) (d : pydict) :
  k' <> k -> dict_lookup k' (dict_setitem k v d) = dict_lookup k' d.
Proof.
  intros Hne. induction d as [| [k0 v0] d IH]; cbn [dict_setitem dict_lookup].
  - destruct (String.eqb_spec k' k); [contradiction | reflexivity].
  - destruct (String.eqb_spec k k0) as [-> | Hk]; cbn [dict_lookup].
    + destruct (String.eqb_spec k' k0); [contradiction | reflexivity].
    + now rewrite IH.
Qed.

Lemma dict_setitem_same (k : string) (v : value) (d : pydict) :
  dict_lookup k (dict_setitem k v d) = Some v.
Proof.
  induction d as [| [k0 v0] d IH]; cbn [dict_setitem dict_lookup].
  - now rewrite String.eqb_refl.
  - destruct (String.eqb_spec k k0) as [-> | Hk]; cbn [dict_lookup].
    + now rewrite String.eqb_refl.
    + destruct (String.eqb_spec k k0); [contradiction | exact IH].
Qed.

Lemma heap_fresh_lookup (h : list pydict) (d : pydict) : (h ++ [d]) !! length h = Some d.
Proof. apply list_lookup_middle. reflexivity. Qed.

Lemma heap_fresh_insert (h : list pydict) (d d' : pydict) :
  <[length h := d']> (h ++ [d]) = h ++ [d'].
Proof.
  rewrite insert_app_r_alt by reflexivity.
  now rewrite Nat.sub_diag.
Qed.

Lemma run_bind {A B} (m : M A) (k : A -> M B) (st : state) :
  bind m k st =
  match m st with
  | (Ok a, st') => k a st'
  | (Raise e, st') => (Raise e, st')
  end.
Proof. reflexivity. Qed.

Lemma requests_of_app l1 l2 : requests_of (l1 ++ l2) = requests_of l1 ++ requests_of l2.
Proof.
  induction l1 as [| [name args | rq] l1 IH]; simpl; [reflexivity | exact IH | now rewrite IH].
Qed.

Lemma credential_absent_cases (env : option string) :
  credential_present env = false -> truthy (CAL_API_KEY_ENV env) = false.
Proof. destruct env; intros H; exact H. Qed.

Lemma credential_present_key (env : option string) :
  credential_present env = true -> exists key, env = Some key /\ key <> EmptyString.
Proof.
  destruct env as [key |]; [| discriminate].
  intros H. exists key. split; [reflexivity |].
  cbn in H. apply negb_true_iff in H. now apply String.eqb_neq.
Qed.

(** ** The gateway *)

Lemma make_cal_request_fresh key service endpoint method json_data st :
  key <> EmptyString ->
  _make_cal_request (Some key) service endpoint method None json_data st =
  (normalize (service (requests_of (log st)) (api_request key method endpoint json_data)),
   {| heap := heap st ++ [[("apiKey", VStr key)]];
      log := log st ++ [Http (api_request key method endpoint json_data)] |}).
Proof.
  intros Hkey.
  unfold _make_cal_request, _get_cal_api_key, CAL_API_KEY_ENV.
  rewrite (truthy_str key Hkey). cbn [negb].
  unfold bind, new_dict, setitem, try_except, requests_request, read_dict, bind.
  cbn [heap log].
  rewrite heap_fresh_lookup, heap_fresh_insert. cbn [heap log dict_setitem].
  rewrite heap_fresh_lookup.
  cbn [dict_setitem heap log].
  fold (api_request key method endpoint json_data).
  unfold normalize, raise_for_status, response_json.
  destruct (service _ _) as [r | detail]; [| reflexivity].
  destruct ((400 <=? status_code r) && (status_code r <? 600)); [reflexivity |].
  cbn [ret].
  destruct (status_code r =? 204); [reflexivity |].
  destruct (json_body r) as [v | detail | []]; reflexivity.
Qed.

(** The gateway on a dictionary the caller supplies: the request carries
    the dictionary with the credential set in it, and so does the store. *)
Lemma make_cal_request_supplied key service endpoint method params json_data st d :
  key <> EmptyString ->
  heap st !! params = Some d ->
  let rq := {| rq_method := method;
               rq_url := CAL_API_BASE_URL +:+ endpoint;
               rq_params := dict_setitem "apiKey" (VStr key) d;
               rq_json := json_data;
               rq_headers := [("Content-Type", "application/json")] |} in
  _make_cal_request (Some key) service endpoint method (Some params) json_data st =
  (normalize (service (requests_of (log st)) rq),
   {| heap := <[params := dict_setitem "apiKey" (VStr key) d]> (heap st);
      log := log st ++ [Http rq] |}).
Proof.
  intros Hkey Hd rq.
  unfold _make_cal_request, _get_cal_api_key, CAL_API_KEY_ENV.
  rewrite (truthy_str key Hkey). cbn [negb].
  unfold bind, ret, setitem, try_except, requests_request, read_dict, bind.
  rewrite Hd. cbn [heap log].
  rewrite list_lookup_insert_eq by (eapply lookup_lt_Some; eassumption).
  cbn [heap log]. fold rq.
  unfold normalize, raise_for_status, response_json.
  destruct (service _ _) as [r | detail]; [| reflexivity].
  destruct ((400 <=? status_code r) && (status_code r <? 600)); [reflexivity |].
  cbn [ret].
  destruct (status_code r =? 204); [reflexivity |].
  destruct (json_body r) as [v | detail | []]; reflexivity.
Qed.

(** C9, as the code has it.  The gateway writes the credential into the
    dictionary its caller supplies: after the call that dictionary has
    [apiKey] set to the credential, its other entries are as before, and
    every other dictionary of the store is as before.  With no credential the
    call leaves the whole state as it was; given no dictionary, it leaves
    every dictionary there is as it was. *)
Theorem gateway_sets_api_key_in_place (env : option string) (service : remote)
    (endpoint method : string) (params : loc) (json_data : option value)
    (st : state) (d : pydict) :
  let st' := snd (_make_cal_request env service endpoint method (Some params) json_data st) in
  let st0 := snd (_make_cal_request env service endpoint method None json_data st) in
  heap st !! params = Some d ->
  (credential_present env = false -> st' = st)
  /\ (forall key, env = Some key -> key <> EmptyString ->
      heap st' !! params = Some (dict_setitem "apiKey" (VStr key) d)
      /\ dict_lookup "apiKey" (dict_setitem "apiKey" (VStr key) d) = Some (VStr key)
      /\ (forall k, k <> "apiKey" ->
          dict_lookup k (dict_setitem "apiKey" (VStr key) d) = dict_lookup k d)
      /\ (forall other, other <> params -> heap st' !! other = heap st !! other))
  /\ (forall l, (l < length (heap st))%nat -> heap st0 !! l = heap st !! l).
Proof.
  intros st' st0 Hd. split; [| split].
  - intros Henv. apply credential_absent_cases in Henv.
    unfold st', _make_cal_request, _get_cal_api_key. rewrite Henv. reflexivity.
  - intros key -> Hkey. unfold st'.
    rewrite (make_cal_request_supplied key service endpoint method params json_data st d Hkey Hd).
    cbn [snd heap]. repeat split.
    + apply list_lookup_insert_eq. eapply lookup_lt_Some; eassumption.
    + apply dict_setitem_same.
    + intros k Hk. now apply dict_setitem_other.
    + intros other Hother. apply list_lookup_insert_ne. congruence.
  - intros l Hl. unfold st0.
    destruct (credential_present env) eqn:Henv.
    + apply credential_present_key in Henv as (key & -> & Hkey).
      rewrite make_cal_request_fresh by assumption.
      cbn [snd heap]. now apply lookup_app_l.
    + apply credential_absent_cases in Henv.
      unfold _make_cal_request, _get_cal_api_key. rewrite Henv. reflexivity.
Qed.

Lemma gateway_sets_api_key_in_place_witness :
  heap (snd (_make_cal_request (Some "k") no_service "slots" "GET" (Some 0%nat) None
               {| heap := [[("eventType", VStr "30min")]]; log := [] |})) !! 0%nat
  = Some [("eventType", VStr "30min"); ("apiKey", VStr "k")].
Proof.
  destruct (gateway_sets_api_key_in_place (Some "k") no_service "slots" "GET" 0%nat None
              {| heap := [[("eventType", VStr "30min")]]; log := [] |}
              [("eventType", VStr "30min")]) as (_ & Hset & _); [reflexivity |].
  destruct (Hset "k") as [Hcell _]; [reflexivity | discriminate |].
  exact Hcell.
Defined.

(** C9 as stated fails: a caller's dictionary [{eventType: 30min}] holds an
    [apiKey] entry after the call. *)
Theorem gateway_changes_supplied_params :
  let params := [("eventType", VStr "30min")] in
  let st := {| heap := [params]; log := [] |} in
  let st' := snd (_make_cal_request (Some "k") no_service "slots" "GET" (Some 0%nat) None st) in
  heap st !! 0%nat = Some params
  /\ heap st' !! 0%nat = Some [("eventType", VStr "30min"); ("apiKey", VStr "k")]
  /\ heap st' !! 0%nat <> heap st !! 0%nat.
Proof. repeat split. discriminate. Qed.

(** ** The credential check of the operations *)

(** C5, as the code has it.  With no credential each of the seven
    operations returns an [{error: ...}] envelope whose text starts with
    [Cal.com API Key is not set], sends no request and touches no
    dictionary.  The text is the same for six operations;
    [create_cal_event_type] has a text of its own. *)
Theorem absent_credential_short_circuits (env : option string) (service : remote)
    (op : operation) (h : list pydict) :
  let run := run_operation env service op (initial h) in
  credential_present env = false ->
  fst run = Ok (dumps (error_envelope (configuration_message op)))
  /\ String.prefix "Cal.com API Key is not set" (configuration_message op) = true
  /\ (configuration_message op
      = match op with
        | CreateCalEventType _ _ _ _ _ =>
            "Cal.com API Key is not set in environment variables. Please set CAL_API_KEY in your .env file."
        | _ => "Cal.com API Key is not set. Please set it in the Streamlit UI."
        end)
  /\ requests_of (log (snd run)) = []
  /\ heap (snd run) = h
  /\ (forall endpoint method params json_data st,
        _make_cal_request env service endpoint method params json_data st
        = (Ok (error_envelope "Cal.com API Key is not set. Please set it in the Streamlit UI."),
           st)).
Proof.
  intros run Henv. apply credential_absent_cases in Henv.
  unfold run.
  destruct op; cbn [run_operation];
    unfold list_event_types, get_available_slots, book_cal_event, list_cal_events,
      cancel_cal_event, reschedule_cal_event, create_cal_event_type, tool,
      _make_cal_request, _get_cal_api_key, initial;
    rewrite run_bind; cbn [record heap log app]; rewrite Henv;
    repeat split.
Qed.

Lemma absent_credential_short_circuits_witness :
  fst (run_operation None no_service (CancelCalEvent 42) (initial []))
  = Ok (dumps (error_envelope "Cal.com API Key is not set. Please set it in the Streamlit UI."))
  /\ requests_of (log (snd (run_operation None no_service (CancelCalEvent 42) (initial [])))) = [].
Proof.
  destruct (absent_credential_short_circuits None no_service (CancelCalEvent 42) [])
    as (Hresult & _ & _ & Hlog & _ & _); [reflexivity |].
  split; [exact Hresult | exact Hlog].
Defined.

(** C5 as stated fails: the configuration-error text of
    [create_cal_event_type] is not that of [list_event_types]. *)
Theorem configuration_text_differs :
  fst (run_operation None no_service
         (CreateCalEventType "30 Minute Meeting" "30min-meeting" 30 EmptyString false)
         (initial []))
  = Ok (dumps (error_envelope
         "Cal.com API Key is not set in environment variables. Please set CAL_API_KEY in your .env file."))
  /\ fst (run_operation None no_service ListEventTypes (initial []))
     = Ok (dumps (error_envelope
            "Cal.com API Key is not set. Please set it in the Streamlit UI."))
  /\ fst (run_operation None no_service
            (CreateCalEventType "30 Minute Meeting" "30min-meeting" 30 EmptyString false)
            (initial []))
     <> fst (run_operation None no_service ListEventTypes (initial [])).
Proof. repeat split. discriminate. Qed.

(** ** Date validation *)

Lemma strptime_ymd_raises (s : string) (e : exn) :
  strptime_ymd s = Raise e -> e = ValueError.
Proof.
  unfold strptime_ymd. intros H.
  repeat match type of H with
         | context [match ?x with _ => _ end] => destruct x
         end; congruence.
Qed.

(** C7.  When one of the two date texts does not parse under ['%Y-%m-%d'],
    no request is sent, and (a credential being present) the operation
    returns the validation envelope, which names [start_date_str] and
    [end_date_str]. *)
Theorem get_available_slots_rejects_bad_dates (env : option string) (service : remote)
    (event_type_slug start_date_str end_date_str : string) (h : list pydict) :
  let run := get_available_slots env service event_type_slug start_date_str end_date_str
               (initial h) in
  parses start_date_str && parses end_date_str = false ->
  requests_of (log (snd run)) = []
  /\ (credential_present env = true ->
      fst run = Ok (dumps (error_envelope
        "Invalid date format for start_date_str or end_date_str. Please use YYYY-MM-DD."))).
Proof.
  intros run Hdates.
  destruct (credential_present env) eqn:Henv.
  - apply credential_present_key in Henv as (key & -> & Hkey).
    unfold run, get_available_slots, tool, _get_cal_api_key, CAL_API_KEY_ENV, initial.
    rewrite run_bind. cbn [record heap log app].
    rewrite (truthy_str key Hkey). cbn [negb].
    unfold bind, try_except, lift, ret.
    unfold parses in Hdates.
    destruct (strptime_ymd start_date_str) as [d1 | e1] eqn:H1.
    + destruct (strptime_ymd end_date_str) as [d2 | e2] eqn:H2; [discriminate Hdates |].
      apply strptime_ymd_raises in H2 as ->. split; reflexivity.
    + apply strptime_ymd_raises in H1 as ->. split; reflexivity.
  - split; [| discriminate].
    apply credential_absent_cases in Henv.
    unfold run, get_available_slots, tool, _get_cal_api_key, initial.
    rewrite run_bind. cbn [record heap log app]. rewrite Henv. reflexivity.
Qed.

Lemma get_available_slots_rejects_bad_dates_witness :
  requests_of (log (snd (get_available_slots (Some "k") no_service "30min"
                           "bad-date" "2024-01-01" (initial [])))) = []
  /\ fst (get_available_slots (Some "k") no_service "30min" "bad-date" "2024-01-01"
            (initial []))
     = Ok (dumps (error_envelope
        "Invalid date format for start_date_str or end_date_str. Please use YYYY-MM-DD.")).
Proof.
  destruct (get_available_slots_rejects_bad_dates (Some "k") no_service "30min"
              "bad-date" "2024-01-01" []) as [Hlog Hresult]; [reflexivity |].
  split; [exact Hlog | apply Hresult; reflexivity].
Defined.

Example strptime_iso : strptime_ymd "2024-02-29" = Ok {| year := 2024; month := 2; day := 29 |}.
Proof. reflexivity. Qed.

Example strptime_single_digits :
  strptime_ymd "2024-1-5" = Ok {| year := 2024; month := 1; day := 5 |}.
Proof. reflexivity. Qed.

Example strptime_no_leap_day : strptime_ymd "2023-02-29" = Raise ValueError.
Proof. reflexivity. Qed.

Example strptime_trailing_text : strptime_ymd "2024-01-310" = Raise ValueError.
Proof. reflexivity. Qed.

Example isoformat_pads :
  isoformat {| year := 24; month := 1; day := 5 |} = "0024-01-05".
Proof. reflexivity. Qed.

(** ** Cancel and Book *)

Lemma cancel_cal_event_run key service booking_id st :
  key <> EmptyString ->
  let rq := api_request key "DELETE" ("bookings/" +:+ str_of_int booking_id) None in
  cancel_cal_event (Some key) service booking_id st =
  (match normalize (service (requests_of (log st)) rq) with
   | Ok answer =>
       match py_in "error" answer with
       | Ok true => Ok (dumps answer)
       | Ok false =>
           Ok (dumps (VDict [("status", VStr "success");
                             ("message", VStr ("Event with ID " +:+ str_of_int booking_id
                                               +:+ " cancelled successfully."))]))
       | Raise e => Raise e
       end
   | Raise e => Raise e
   end,
   {| heap := heap st ++ [[("apiKey", VStr key)]];
      log := log st ++ [Invoke "cancel_cal_event" [VInt booking_id]; Http rq] |}).
Proof.
  intros Hkey rq.
  unfold cancel_cal_event, tool, _get_cal_api_key, CAL_API_KEY_ENV.
  rewrite run_bind. cbn [record heap log].
  rewrite (truthy_str key Hkey). cbn [negb].
  rewrite run_bind, make_cal_request_fresh by assumption.
  cbn [heap log].
  rewrite requests_of_app. cbn [requests_of]. rewrite app_nil_r, <- app_assoc.
  fold rq. cbn [app].
  destruct (normalize (service (requests_of (log st)) rq)) as [answer | e]; [| reflexivity].
  rewrite run_bind. unfold lift.
  destruct (py_in "error" answer) as [[|] | e]; reflexivity.
Qed.

Lemma book_cal_event_run key service event_type_id start_time end_time email name title
    description st :
  key <> EmptyString ->
  let rq := api_request key "POST" "bookings"
              (Some (book_payload event_type_id start_time end_time email name title
                                  description)) in
  book_cal_event (Some key) service event_type_id start_time end_time email name title
                 description st =
  (passed_on (normalize (service (requests_of (log st)) rq)),
   {| heap := heap st ++ [[("apiKey", VStr key)]];
      log := log st ++ [Invoke "book_cal_event"
                          [event_type_id; VStr start_time; VStr end_time; email; name; title;
                           description];
                        Http rq] |}).
Proof.
  intros Hkey rq.
  unfold book_cal_event, tool, _get_cal_api_key, CAL_API_KEY_ENV.
  rewrite run_bind. cbn [record heap log].
  rewrite (truthy_str key Hkey). cbn [negb].
  rewrite run_bind, make_cal_request_fresh by assumption.
  cbn [heap log].
  rewrite requests_of_app. cbn [requests_of]. rewrite app_nil_r, <- app_assoc.
  fold rq. destruct (normalize (service (requests_of (log st)) rq)); reflexivity.
Qed.

Lemma create_cal_event_type_run key service title slug length description hidden st :
  key <> EmptyString ->
  let rq := api_request key "POST" "event-types"
              (Some (create_payload title slug length description hidden)) in
  create_cal_event_type (Some key) service title slug length description hidden st =
  (passed_on (normalize (service (requests_of (log st)) rq)),
   {| heap := heap st ++ [[("apiKey", VStr key)]];
      log := log st ++ [Invoke "create_cal_event_type"
                          [VStr title; VStr slug; VInt length; VStr description;
                           VBool hidden];
                        Http rq] |}).
Proof.
  intros Hkey rq.
  unfold create_cal_event_type, tool, _get_cal_api_key, CAL_API_KEY_ENV.
  rewrite run_bind. cbn [record heap log].
  rewrite (truthy_str key Hkey). cbn [negb].
  rewrite run_bind, make_cal_request_fresh by assumption.
  cbn [heap log].
  rewrite requests_of_app. cbn [requests_of]. rewrite app_nil_r, <- app_assoc.
  unfold rq, create_payload. destruct (normalize _); reflexivity.
Qed.

(** ** Reschedule *)

(** Entering [reschedule_cal_event] with a credential, up to the answer to
    the fetch. *)
Ltac enter_reschedule Hkey :=
  unfold reschedule_cal_event, tool, _get_cal_api_key, CAL_API_KEY_ENV, initial;
  rewrite run_bind; cbn [record heap log app];
  rewrite (truthy_str _ Hkey); cbn [negb];
  rewrite run_bind, make_cal_request_fresh by assumption;
  cbn [heap log requests_of app].

(** From the answer to the fetch to the call of the Cancel tool, for a
    booking that has all it takes. *)
Ltac extract_details Hfetch Herr Hbooking Hid Hid' Hatt Hemail Hemail' Hname Hname' :=
  let Hb := fresh "Hb" in
  assert (Hb := dict_lookup_truthy _ _ _ Hid);
  rewrite Hfetch;
  unfold first_attendee, bind, lift, ret;
  cbn [py_in py_get py_getitem];
  unfold dict_get; rewrite Herr, Hbooking, Hb; cbn [negb py_get];
  unfold dict_get; rewrite Hid, Hatt; cbn [truthy py_first py_get];
  unfold dict_get; rewrite Hemail, Hname, Hid', Hemail', Hname';
  cbn [negb orb].

(** One step of a symbolic run in the goal: split on a test that has no
    test inside. *)
Ltac run_leaf :=
  match goal with
  | |- context [match ?x with _ => _ end] =>
      lazymatch x with
      | context [match _ with _ => _ end] => fail
      | _ => destruct x eqn:?
      end
  end;
  cbn beta iota zeta; cbn [heap log requests_of app loads snd fst].

(** Every run of a reschedule with a credential sends the fetch and
    nothing else, and it ends in one of three ways: the fetch-failure
    envelope, the missing-information envelope, or an exception.  The call
    of the Cancel tool on line 230 is among the last: the integer it passes
    is refused before [cancel_cal_event] runs. *)
Lemma reschedule_with_credential (key : string) (service : remote) (h : list pydict)
    (booking_id : Z) (new_start new_end : string) :
  let run := reschedule_cal_event (Some key) service booking_id new_start new_end (initial h) in
  key <> EmptyString ->
  snd run
  = {| heap := h ++ [[("apiKey", VStr key)]];
       log := [reschedule_invocation booking_id new_start new_end;
               Http (api_request key "GET" ("bookings/" +:+ str_of_int booking_id) None)] |}
  /\ (fst run = Ok (dumps (error_envelope (fetch_failed_message booking_id)))
      \/ fst run = Ok (dumps (error_envelope missing_information_message))
      \/ exists e, fst run = Raise e).
Proof.
  intros run Hkey. unfold run. clear run.
  enter_reschedule Hkey.
  unfold first_attendee, bind, lift, ret. cbn [call_tool accepted_input].
  unfold raise.
  repeat run_leaf.
  all: split; [reflexivity | eauto 6].
Qed.

(** Every run of a reschedule: without a credential it returns the
    configuration envelope at once; with one it goes as far as the fetch. *)
Lemma reschedule_outcomes (env : option string) (service : remote) (h : list pydict)
    (booking_id : Z) (new_start new_end : string) :
  let run := reschedule_cal_event env service booking_id new_start new_end (initial h) in
  run = (Ok (dumps (error_envelope streamlit_key_message)),
         {| heap := h; log := [reschedule_invocation booking_id new_start new_end] |})
  \/ exists key,
       env = Some key
       /\ snd run
          = {| heap := h ++ [[("apiKey", VStr key)]];
               log := [reschedule_invocation booking_id new_start new_end;
                       Http (api_request key "GET" ("bookings/" +:+ str_of_int booking_id)
                               None)] |}
       /\ (fst run = Ok (dumps (error_envelope (fetch_failed_message booking_id)))
           \/ fst run = Ok (dumps (error_envelope missing_information_message))
           \/ exists e, fst run = Raise e).
Proof.
  intros run. unfold run. clear run.
  destruct (credential_present env) eqn:Henv.
  - apply credential_present_key in Henv as (key & -> & Hkey).
    right. exists key. split; [reflexivity |].
    now apply reschedule_with_credential.
  - apply credential_absent_cases in Henv. left.
    unfold reschedule_cal_event, tool, _get_cal_api_key, initial.
    rewrite run_bind. cbn [record heap log app]. rewrite Henv. reflexivity.
Qed.

(** C1, as the code has it.  The fetch answers with a booking that has all
    it takes (an event type id, a first attendee with e-mail and name), so
    the reschedule comes to line 230.  There [cancel_cal_event] is the tool
    object, not the function, and the booking id is not an input it takes:
    the call raises [ValidationError].  The log holds the fetch only.  The
    Cancel operation has not run and no DELETE has gone out, the Book
    operation has not run and no POST has gone out, and no envelope is
    returned, whatever the service would have answered. *)
Theorem reschedule_raises_at_cancel_call (key : string) (service : remote) (h : list pydict)
    (booking_id : Z) (new_start new_end : string)
    (fetched booking attendee : pydict) (others : list value)
    (event_type_id email name : value) :
  let fetch := api_request key "GET" ("bookings/" +:+ str_of_int booking_id) None in
  key <> EmptyString ->
  normalize (service [] fetch) = Ok (VDict fetched) ->
  dict_has "error" fetched = false ->
  dict_lookup "booking" fetched = Some (VDict booking) ->
  dict_lookup "eventTypeId" booking = Some event_type_id ->
  truthy event_type_id = true ->
  dict_lookup "attendees" booking = Some (VList (VDict attendee :: others)) ->
  dict_lookup "email" attendee = Some email ->
  truthy email = true ->
  dict_lookup "name" attendee = Some name ->
  truthy name = true ->
  reschedule_cal_event (Some key) service booking_id new_start new_end (initial h)
  = (Raise ValidationError,
     {| heap := h ++ [[("apiKey", VStr key)]];
        log := [reschedule_invocation booking_id new_start new_end; Http fetch] |}).
Proof.
  intros fetch Hkey Hfetch Herr Hbooking Hid Hid' Hatt Hemail Hemail' Hname Hname'.
  enter_reschedule Hkey. fold fetch.
  extract_details Hfetch Herr Hbooking Hid Hid' Hatt Hemail Hemail' Hname Hname'.
  reflexivity.
Qed.

Lemma reschedule_raises_at_cancel_call_witness :
  reschedule_cal_event (Some "k") rescheduling_accepted 42
    "2024-06-15T10:00:00Z" "2024-06-15T11:00:00Z" (initial [])
  = (Raise ValidationError,
     {| heap := [[("apiKey", VStr "k")]];
        log := [reschedule_invocation 42 "2024-06-15T10:00:00Z" "2024-06-15T11:00:00Z";
                Http (api_request "k" "GET" "bookings/42" None)] |}).
Proof.
  apply (reschedule_raises_at_cancel_call "k" rescheduling_accepted [] 42
           "2024-06-15T10:00:00Z" "2024-06-15T11:00:00Z"
           fetched_sync sync_booking
           [("email", VStr "a@b.com"); ("name", VStr "Alice")] []
           (VInt 5) (VStr "a@b.com") (VStr "Alice"));
    first [discriminate | reflexivity].
Defined.

(** C3, as the code has it.  The gateway's answer to the fetch is an error
    envelope, or an object that carries no booking: the reschedule returns
    the [Could not fetch full details for event with ID <id>] envelope, and
    the log holds the fetch only: neither Cancel nor Book is invoked. *)
Theorem reschedule_fetch_failure (key : string) (service : remote) (h : list pydict)
    (booking_id : Z) (new_start new_end : string) (answer : value) :
  let fetch := api_request key "GET" ("bookings/" +:+ str_of_int booking_id) None in
  key <> EmptyString ->
  normalize (service [] fetch) = Ok answer ->
  is_error_envelope answer || lacks_booking answer = true ->
  reschedule_cal_event (Some key) service booking_id new_start new_end (initial h)
  = (Ok (dumps (error_envelope
                  ("Could not fetch full details for event with ID "
                   +:+ str_of_int booking_id +:+ " for rescheduling."))),
     {| heap := h ++ [[("apiKey", VStr key)]];
        log := [reschedule_invocation booking_id new_start new_end; Http fetch] |}).
Proof.
  intros fetch Hkey Hfetch Hanswer.
  enter_reschedule Hkey.
  fold fetch. rewrite Hfetch.
  destruct answer as [| | | | | | fetched]; try discriminate Hanswer.
  cbn [is_error_envelope lacks_booking] in Hanswer.
  unfold bind, lift, ret. cbn [py_in py_get].
  destruct (dict_has "error" fetched); [reflexivity |].
  cbn [orb] in Hanswer. rewrite Hanswer. reflexivity.
Qed.

Lemma reschedule_fetch_failure_witness :
  reschedule_cal_event (Some "k") booking_not_found 99
    "2024-06-15T10:00:00Z" "2024-06-15T11:00:00Z" (initial [])
  = (Ok (dumps (error_envelope
                  "Could not fetch full details for event with ID 99 for rescheduling.")),
     {| heap := [[("apiKey", VStr "k")]];
        log := [reschedule_invocation 99 "2024-06-15T10:00:00Z" "2024-06-15T11:00:00Z";
                Http (api_request "k" "GET" "bookings/99" None)] |}).
Proof.
  apply (reschedule_fetch_failure "k" booking_not_found [] 99
           "2024-06-15T10:00:00Z" "2024-06-15T11:00:00Z"
           (error_envelope "HTTP error: 404 - Not found"));
    first [discriminate | reflexivity].
Defined.

(** C3 as stated fails: a fetch answered with a JSON array, with [null], or
    with an object whose [booking] is a number, is a response without a
    booking object, and the reschedule raises instead of returning the
    envelope.  [.get] on line 214 has no meaning on an array, [in] has none
    on [null], and [.get] on line 219 has none on a number. *)
Theorem reschedule_fetch_without_object_raises :
  let run answer :=
    fst (reschedule_cal_event (Some "k") (scripted [json_response 200 answer]) 42
           "2024-06-15T10:00:00Z" "2024-06-15T11:00:00Z" (initial [])) in
  let envelope :=
    Ok (dumps (error_envelope
                 "Could not fetch full details for event with ID 42 for rescheduling.")) in
  run (VList []) = Raise AttributeError
  /\ run VNone = Raise TypeError
  /\ run (VDict [("booking", VInt 7)]) = Raise AttributeError
  /\ run (VList []) <> envelope
  /\ run VNone <> envelope
  /\ run (VDict [("booking", VInt 7)]) <> envelope.
Proof. repeat split; discriminate. Qed.

(** C10, as the code has it.  The fetched booking has [eventTypeId] 0: the
    test on line 223 is a truth test, so the id counts as missing.  Nothing
    but the fetch is in the log (neither Cancel nor Book is invoked), and,
    the attendees being readable, the envelope returned is the
    missing-information error. *)
Theorem reschedule_zero_event_type (key : string) (service : remote) (h : list pydict)
    (booking_id : Z) (new_start new_end : string) (fetched booking : pydict) :
  let fetch := api_request key "GET" ("bookings/" +:+ str_of_int booking_id) None in
  let run := reschedule_cal_event (Some key) service booking_id new_start new_end (initial h) in
  key <> EmptyString ->
  normalize (service [] fetch) = Ok (VDict fetched) ->
  dict_has "error" fetched = false ->
  dict_lookup "booking" fetched = Some (VDict booking) ->
  dict_lookup "eventTypeId" booking = Some (VInt 0) ->
  log (snd run) = [reschedule_invocation booking_id new_start new_end; Http fetch]
  /\ (attendees_readable booking = true ->
      fst run = Ok (dumps (error_envelope
        "Missing crucial information (event type ID, attendee email, or attendee name) from original booking to reschedule."))).
Proof.
  intros fetch run Hkey Hfetch Herr Hbooking Hid.
  assert (Hb : truthy (VDict booking) = true) by (eapply dict_lookup_truthy; eassumption).
  unfold run. enter_reschedule Hkey.
  fold fetch. rewrite Hfetch.
  unfold first_attendee, bind, lift, ret. cbn [py_in py_get py_getitem].
  unfold dict_get. rewrite Herr, Hbooking, Hb. cbn [negb py_get].
  unfold dict_get. rewrite Hid. unfold attendees_readable.
  destruct (dict_lookup "attendees" booking) as [atts |]; [| split; reflexivity].
  destruct (truthy atts) eqn:Hatts; [| split; reflexivity].
  destruct atts as [| | | | s | [| first rest] |]; cbn [py_first];
    try (split; [reflexivity | discriminate]).
  - destruct s; cbn [py_get]; split; first [reflexivity | discriminate].
  - destruct first; cbn [py_get]; split; first [reflexivity | discriminate].
Qed.

Lemma reschedule_zero_event_type_witness :
  log (snd (reschedule_cal_event (Some "k") zero_event_type_fetched 42
              "2024-06-15T10:00:00Z" "2024-06-15T11:00:00Z" (initial [])))
  = [reschedule_invocation 42 "2024-06-15T10:00:00Z" "2024-06-15T11:00:00Z";
     Http (api_request "k" "GET" "bookings/42" None)]
  /\ fst (reschedule_cal_event (Some "k") zero_event_type_fetched 42
            "2024-06-15T10:00:00Z" "2024-06-15T11:00:00Z" (initial []))
     = Ok (dumps (error_envelope
        "Missing crucial information (event type ID, attendee email, or attendee name) from original booking to reschedule.")).
Proof.
  destruct (reschedule_zero_event_type "k" zero_event_type_fetched [] 42
              "2024-06-15T10:00:00Z" "2024-06-15T11:00:00Z"
              [("booking", VDict zero_event_type_booking)] zero_event_type_booking)
    as [Hlog Hresult]; try first [discriminate | reflexivity].
  split; [exact Hlog | apply Hresult; reflexivity].
Defined.

(** C10 as stated fails: with [eventTypeId] 0 and attendees that start with
    something that is not an object ([null], or a bare e-mail text), line
    220 raises [AttributeError] before the test on line 223 is reached, and
    no envelope is returned. *)
Theorem reschedule_zero_event_type_unreadable_attendees :
  let run attendees :=
    fst (reschedule_cal_event (Some "k")
           (scripted [json_response 200
                        (VDict [("booking",
                                 VDict [("id", VInt 42); ("eventTypeId", VInt 0);
                                        ("title", VStr "Sync");
                                        ("attendees", attendees)])])])
           42 "2024-06-15T10:00:00Z" "2024-06-15T11:00:00Z" (initial [])) in
  let envelope :=
    Ok (dumps (error_envelope
      "Missing crucial information (event type ID, attendee email, or attendee name) from original booking to reschedule.")) in
  run (VList [VNone]) = Raise AttributeError
  /\ run (VList [VStr "a@b.com"]) = Raise AttributeError
  /\ run (VList [VNone]) <> envelope
  /\ run (VList [VStr "a@b.com"]) <> envelope.
Proof. repeat split; discriminate. Qed.

(** C2, on the code.  No run of a reschedule comes to the Book operation:
    whatever the credential, the arguments and the service, the result is
    never the envelope that says the event is cancelled and the new booking
    failed, the function of [book_cal_event] is never entered and no POST
    goes out.  At the input of the claim (the service would cancel the
    booking and refuse the new one with a 409) the run ends on line 230 with
    [ValidationError], the fetch being the one request sent. *)
Theorem reschedule_never_reaches_book (env : option string) (service : remote)
    (h : list pydict) (booking_id : Z) (new_start new_end : string) :
  let run := reschedule_cal_event env service booking_id new_start new_end (initial h) in
  (forall detail, fst run <> Ok (dumps (error_envelope (rebook_failed_message detail))))
  /\ existsb (invokes "book_cal_event") (log (snd run)) = false
  /\ Forall (fun rq => rq_method rq <> "POST") (requests_of (log (snd run)))
  /\ reschedule_cal_event (Some "k") rebooking_refused 42
       "2024-06-15T10:00:00Z" "2024-06-15T11:00:00Z" (initial [])
     = (Raise ValidationError,
        {| heap := [[("apiKey", VStr "k")]];
           log := [reschedule_invocation 42 "2024-06-15T10:00:00Z" "2024-06-15T11:00:00Z";
                   Http (api_request "k" "GET" "bookings/42" None)] |}).
Proof.
  intros run.
  destruct (reschedule_outcomes env service h booking_id new_start new_end)
    as [Hrun | (key & -> & Hstate & Hresult)]; fold run in Hrun || fold run in Hstate, Hresult.
  - rewrite Hrun. cbn [fst snd log requests_of existsb invokes].
    repeat split; [discriminate | constructor].
  - rewrite Hstate. cbn [log requests_of existsb invokes orb].
    repeat split.
    + intros detail Heq.
      destruct Hresult as [H | [H | [e H]]]; rewrite H in Heq; discriminate Heq.
    + repeat constructor. discriminate.
Qed.

(** C4, on the code.  No run of a reschedule gets a result from the Cancel
    operation: whatever the credential, the arguments and the service, the
    result is never the envelope that describes a failed cancellation, the
    function of [cancel_cal_event] is never entered and no DELETE goes out.
    At the input of the claim (the service would refuse the DELETE with a
    404) the run ends on line 230 with [ValidationError], the fetch being
    the one request sent. *)
Theorem reschedule_never_reports_cancel_failure (env : option string) (service : remote)
    (h : list pydict) (booking_id : Z) (new_start new_end : string) :
  let run := reschedule_cal_event env service booking_id new_start new_end (initial h) in
  (forall detail,
     fst run <> Ok (dumps (error_envelope (cancel_failed_message booking_id detail))))
  /\ existsb (invokes "cancel_cal_event") (log (snd run)) = false
  /\ Forall (fun rq => rq_method rq <> "DELETE") (requests_of (log (snd run)))
  /\ reschedule_cal_event (Some "k") cancel_refused 42
       "2024-06-15T10:00:00Z" "2024-06-15T11:00:00Z" (initial [])
     = (Raise ValidationError,
        {| heap := [[("apiKey", VStr "k")]];
           log := [reschedule_invocation 42 "2024-06-15T10:00:00Z" "2024-06-15T11:00:00Z";
                   Http (api_request "k" "GET" "bookings/42" None)] |}).
Proof.
  intros run.
  destruct (reschedule_outcomes env service h booking_id new_start new_end)
    as [Hrun | (key & -> & Hstate & Hresult)]; fold run in Hrun || fold run in Hstate, Hresult.
  - rewrite Hrun. cbn [fst snd log requests_of existsb invokes].
    repeat split; [discriminate | constructor].
  - rewrite Hstate. cbn [log requests_of existsb invokes orb].
    repeat split.
    + intros detail Heq.
      destruct Hresult as [H | [H | [e H]]]; rewrite H in Heq; discriminate Heq.
    + repeat constructor. discriminate.
Qed.

Example str_of_int_negative : str_of_int (-42) = "-42".
Proof. reflexivity. Qed.

Example py_str_of_dict :
  py_str (VDict [("code", VInt 5); ("ok", VList [VNone; VBool true; VStr "a"])])
  = "{'code': 5, 'ok': [None, True, 'a']}".
Proof. reflexivity. Qed.

(** ** Listing the bookings *)

Lemma lower_empty (s : string) : lower s = EmptyString -> s = EmptyString.
Proof. destruct s; [reflexivity | discriminate]. Qed.

Lemma some_attendee_matches_run (email : string) (attendees : list value) (st : state) :
  email <> EmptyString ->
  forallb well_formed_attendee attendees = true ->
  some_attendee_matches email attendees st
  = (Ok (existsb (attendee_has_email email) attendees), st).
Proof.
  intros Hemail. induction attendees as [| a rest IH]; intros Hwf; [reflexivity |].
  cbn [forallb] in Hwf. apply andb_true_iff in Hwf as [Ha Hrest].
  cbn [some_attendee_matches existsb]. unfold bind, lift, ret.
  destruct a as [| | | | | | kvs]; try discriminate Ha.
  unfold attendee_has_email. cbn [py_get field well_formed_attendee] in *.
  unfold dict_get.
  destruct (dict_lookup "email" kvs) as [[| | | | s | |] |]; try discriminate Ha;
    cbn [py_lower].
  - destruct (String.eqb (lower s) (lower email)); [reflexivity | now apply IH].
  - destruct (String.eqb_spec (lower EmptyString) (lower email)) as [Heq | _].
    + symmetry in Heq. apply lower_empty in Heq. contradiction.
    + now apply IH.
Qed.

Lemma filter_bookings_run (email : string) (bookings : list value) (st : state) :
  email <> EmptyString ->
  forallb well_formed_booking bookings = true ->
  filterM (fun booking =>
             attendees <- lift (py_get booking "attendees" (VList [])) ;;
             attendees <- lift (py_iter attendees) ;;
             some_attendee_matches email attendees) bookings st
  = (Ok (List.filter (booking_matches email) bookings), st).
Proof.
  intros Hemail. induction bookings as [| b rest IH]; intros Hwf; [reflexivity |].
  cbn [forallb] in Hwf. apply andb_true_iff in Hwf as [Hb Hrest].
  cbn [filterM List.filter]. rewrite run_bind.
  assert (Hhead :
    (attendees <- lift (py_get b "attendees" (VList [])) ;;
     attendees <- lift (py_iter attendees) ;;
     some_attendee_matches email attendees) st = (Ok (booking_matches email b), st)).
  { destruct b as [| | | | | | kvs]; try discriminate Hb.
    unfold bind, lift. cbn [py_get well_formed_booking] in *.
    unfold booking_matches, attendees_of, field, dict_get.
    destruct (dict_lookup "attendees" kvs) as [[| | | | | atts |] |]; try discriminate Hb;
      cbn [py_iter].
    - now apply some_attendee_matches_run.
    - reflexivity. }
  rewrite Hhead, run_bind, (IH Hrest). reflexivity.
Qed.

Lemma with_email_run (attendees : list value) (st : state) :
  forallb well_formed_attendee attendees = true ->
  filterM (fun a => e <- lift (py_get a "email" VNone) ;; ret (truthy e)) attendees st
  = (Ok (List.filter (fun a => truthy (field "email" a)) attendees), st).
Proof.
  induction attendees as [| a rest IH]; intros Hwf; [reflexivity |].
  cbn [forallb] in Hwf. apply andb_true_iff in Hwf as [Ha Hrest].
  cbn [filterM List.filter]. rewrite run_bind.
  destruct a as [| | | | | | kvs]; try discriminate Ha.
  unfold bind at 1, lift at 1, ret at 1. cbn [py_get field].
  rewrite run_bind, (IH Hrest). reflexivity.
Qed.

Lemma attendee_emails_run (attendees : list value) (st : state) :
  forallb well_formed_attendee attendees = true ->
  mapM (fun a => lift (py_get a "email" VNone)) attendees st
  = (Ok (map (field "email") attendees), st).
Proof.
  induction attendees as [| a rest IH]; intros Hwf; [reflexivity |].
  cbn [forallb] in Hwf. apply andb_true_iff in Hwf as [Ha Hrest].
  cbn [mapM map]. rewrite run_bind.
  destruct a as [| | | | | | kvs]; try discriminate Ha.
  unfold lift at 1. cbn [py_get field].
  rewrite run_bind, (IH Hrest). reflexivity.
Qed.

Lemma forallb_filter {A} (p q : A -> bool) (l : list A) :
  forallb p l = true -> forallb p (List.filter q l) = true.
Proof.
  induction l as [| x l IH]; [reflexivity |].
  cbn [forallb List.filter]. intros H. apply andb_true_iff in H as [Hx Hl].
  destruct (q x); cbn [forallb]; [rewrite Hx |]; now apply IH.
Qed.

Lemma map_filter_comm {A B} (f : A -> B) (p : B -> bool) (l : list A) :
  map f (List.filter (fun x => p (f x)) l) = List.filter p (map f l).
Proof.
  induction l as [| x l IH]; [reflexivity |].
  cbn [map List.filter]. destruct (p (f x)); cbn [map]; now rewrite IH.
Qed.

Lemma summarize_booking_run (b : value) (st : state) :
  well_formed_booking b = true ->
  summarize_booking b st = (Ok (projection b), st).
Proof.
  intros Hwf. destruct b as [| | | | | | kvs]; try discriminate Hwf.
  unfold summarize_booking, projection, attendees_of.
  cbn [well_formed_booking] in Hwf.
  repeat (rewrite run_bind; unfold lift at 1; cbn [py_get]).
  cbn [field].
  destruct (dict_lookup "attendees" kvs) as [[| | | | | atts |] |] eqn:Hatt;
    try discriminate Hwf.
  - assert (dict_get "attendees" (VList []) kvs = VList atts) as ->
      by (unfold dict_get; now rewrite Hatt).
    assert (dict_get "attendees" VNone kvs = VList atts) as ->
      by (unfold dict_get; now rewrite Hatt).
    cbn [py_iter].
    rewrite run_bind, (with_email_run _ _ Hwf).
    rewrite run_bind, attendee_emails_run by (now apply forallb_filter).
    rewrite map_filter_comm. reflexivity.
  - assert (dict_get "attendees" (VList []) kvs = VList []) as ->
      by (unfold dict_get; now rewrite Hatt).
    assert (dict_get "attendees" VNone kvs = VNone) as ->
      by (unfold dict_get; now rewrite Hatt).
    reflexivity.
Qed.

Lemma summaries_run (bookings : list value) (st : state) :
  forallb well_formed_booking bookings = true ->
  mapM summarize_booking bookings st = (Ok (map projection bookings), st).
Proof.
  induction bookings as [| b rest IH]; intros Hwf; [reflexivity |].
  cbn [forallb] in Hwf. apply andb_true_iff in Hwf as [Hb Hrest].
  cbn [mapM map]. rewrite run_bind, (summarize_booking_run b st Hb).
  rewrite run_bind, (IH Hrest). reflexivity.
Qed.

(** C8, as the code has it.  On a listing of well-formed bookings,
    [list_cal_events] with a non-empty e-mail returns exactly the bookings
    some attendee of which has that e-mail, letter case apart; with no
    e-mail, or with the empty text, it returns all of them.  Each booking is
    projected to [id], [title], [description], [startTime], [endTime] and
    [attendees], the non-empty e-mails of its attendees. *)
Theorem list_cal_events_filters_and_projects (key : string) (service : remote)
    (h : list pydict) (email : option string) (answer : pydict) (bookings : list value) :
  let request := api_request key "GET" "bookings" None in
  let selected :=
    match email with
    | Some e => if String.eqb e EmptyString then bookings
                else List.filter (booking_matches e) bookings
    | None => bookings
    end in
  key <> EmptyString ->
  normalize (service [] request) = Ok (VDict answer) ->
  dict_has "error" answer = false ->
  dict_get "bookings" (VList []) answer = VList bookings ->
  forallb well_formed_booking bookings = true ->
  list_cal_events (Some key) service email (initial h)
  = (Ok (dumps (VDict [("bookings", VList (map projection selected))])),
     {| heap := h ++ [[("apiKey", VStr key)]];
        log := [Invoke "list_cal_events" [option_str email]; Http request] |}).
Proof.
  intros request selected Hkey Hanswer Herr Hbookings Hwf.
  unfold list_cal_events, tool, _get_cal_api_key, CAL_API_KEY_ENV, initial.
  rewrite run_bind. cbn [record heap log app].
  rewrite (truthy_str key Hkey). cbn [negb].
  rewrite run_bind, make_cal_request_fresh by assumption.
  cbn [heap log requests_of app]. fold request. rewrite Hanswer.
  rewrite run_bind. unfold lift at 1. cbn [py_in]. rewrite Herr.
  rewrite run_bind. unfold lift at 1. cbn [py_get]. rewrite Hbookings.
  rewrite run_bind.
  assert (Hselected :
    forall st,
      match email with
      | Some e =>
          if truthy (VStr e) then
            bs <- lift (py_iter (VList bookings)) ;;
            kept <- filterM (fun booking =>
                               attendees <- lift (py_get booking "attendees" (VList [])) ;;
                               attendees <- lift (py_iter attendees) ;;
                               some_attendee_matches e attendees) bs ;;
            ret (VList kept)
          else ret (VList bookings)
      | None => ret (VList bookings)
      end st = (Ok (VList selected), st)).
  { intros st. unfold selected. destruct email as [e |]; [| reflexivity].
    cbn [truthy]. destruct (String.eqb_spec e EmptyString) as [-> | He]; [reflexivity |].
    cbn [negb]. rewrite run_bind. unfold lift at 1. cbn [py_iter].
    rewrite run_bind, filter_bookings_run by assumption. reflexivity. }
  rewrite Hselected.
  rewrite run_bind. unfold lift at 1. cbn [py_iter].
  rewrite run_bind, summaries_run; [reflexivity |].
  unfold selected. destruct email as [e |]; [| assumption].
  destruct (String.eqb e EmptyString); [assumption | now apply forallb_filter].
Qed.

Lemma list_cal_events_filters_and_projects_witness :
  list_cal_events (Some "k") sync_listing (Some "A@B.COM") (initial [])
  = (Ok (dumps (VDict [("bookings",
                        VList [VDict [("id", VInt 42);
                                      ("title", VStr "Sync");
                                      ("description", VNone);
                                      ("startTime", VNone);
                                      ("endTime", VNone);
                                      ("attendees", VList [VStr "a@b.com"])]])])),
     {| heap := [[("apiKey", VStr "k")]];
        log := [Invoke "list_cal_events" [VStr "A@B.COM"];
                Http (api_request "k" "GET" "bookings" None)] |}).
Proof.
  apply (list_cal_events_filters_and_projects "k" sync_listing [] (Some "A@B.COM")
           [("bookings", VList [VDict sync_booking])] [VDict sync_booking]);
    first [discriminate | reflexivity].
Defined.

(** C8 as stated fails for the empty e-mail: the booking of Alice is
    returned although none of its attendees has the empty e-mail. *)
Theorem list_cal_events_empty_email_returns_all :
  fst (list_cal_events (Some "k") sync_listing (Some EmptyString) (initial []))
  = Ok (dumps (VDict [("bookings",
                       VList [VDict [("id", VInt 42);
                                     ("title", VStr "Sync");
                                     ("description", VNone);
                                     ("startTime", VNone);
                                     ("endTime", VNone);
                                     ("attendees", VList [VStr "a@b.com"])]])]))
  /\ booking_matches EmptyString (VDict sync_booking) = false.
Proof. split; vm_compute; reflexivity. Qed.

(** C6, at the failing input: one attendee of a listed booking has a null
    e-mail and the caller filters by e-mail.  [None.lower()] raises
    [AttributeError], which leaves the operation. *)
Theorem list_cal_events_null_email_raises :
  fst (list_cal_events (Some "k") null_email_listing (Some "x@y.com") (initial []))
  = Raise AttributeError.
Proof. vm_compute. reflexivity. Qed.

(** ** More on the gateway *)

Lemma prefix_append (s t : string) : String.prefix s (s +:+ t) = true.
Proof.
  induction s as [| c s IH]; simpl.
  - now destruct t.
  - destruct (ascii_dec c c) as [_ | Hne]; [exact IH | contradiction].
Qed.




(** X2.  A response whose status is between 400 and 599 becomes the
    envelope [HTTP error: <status> - <body text>], whatever JSON the body may
    hold. *)
Theorem gateway_reports_http_errors (key : string) (service : remote)
    (endpoint method : string) (json_data : option value) (st : state) (r : response) :
  key <> EmptyString ->
  service (requests_of (log st)) (api_request key method endpoint json_data) = inl r ->
  400 <= status_code r < 600 ->
  fst (_make_cal_request (Some key) service endpoint method None json_data st)
  = Ok (error_envelope
          ("HTTP error: " +:+ str_of_int (status_code r) +:+ " - " +:+ text r)).
Proof.
  intros Hkey Hanswer [Hlo Hhi].
  rewrite make_cal_request_fresh by assumption. cbn [fst].
  rewrite Hanswer. unfold normalize.
  apply Z.leb_le in Hlo. apply Z.ltb_lt in Hhi. now rewrite Hlo, Hhi.
Qed.

Lemma gateway_reports_http_errors_witness :
  fst (_make_cal_request (Some "k")
         (scripted [inl {| status_code := 401;
                           text := "{'message': 'No apiKey provided'}";
                           json_body := Decoded (VDict [("message", VStr "No apiKey provided")]) |}])
         "event-types" "GET" None None (initial []))
  = Ok (error_envelope "HTTP error: 401 - {'message': 'No apiKey provided'}").
Proof.
  apply (gateway_reports_http_errors "k" _ "event-types" "GET" None (initial [])
           {| status_code := 401;
              text := "{'message': 'No apiKey provided'}";
              json_body := Decoded (VDict [("message", VStr "No apiKey provided")]) |});
    [discriminate | reflexivity | cbn; lia].
Defined.

(** X3.  A transport failure, and a body that does not decode on a response
    that is neither an HTTP error nor a 204, both become the envelope
    [Request error: <detail>]. *)
Theorem gateway_reports_request_errors (key : string) (service : remote)
    (endpoint method : string) (json_data : option value) (st : state) (detail : string) :
  let answer := service (requests_of (log st)) (api_request key method endpoint json_data) in
  key <> EmptyString ->
  answer = inr detail
  \/ (exists r, answer = inl r
                /\ (status_code r < 400 \/ 600 <= status_code r)
                /\ status_code r <> 204
                /\ json_body r = NotJSON detail) ->
  fst (_make_cal_request (Some key) service endpoint method None json_data st)
  = Ok (error_envelope ("Request error: " +:+ detail)).
Proof.
  intros answer Hkey Hanswer.
  rewrite make_cal_request_fresh by assumption. cbn [fst]. fold answer.
  destruct Hanswer as [-> | (r & -> & Hstatus & H204 & Hbody)]; [reflexivity |].
  unfold normalize.
  assert ((400 <=? status_code r) && (status_code r <? 600) = false) as ->.
  { apply andb_false_iff. destruct Hstatus; [left; now apply Z.leb_gt | right; now apply Z.ltb_ge]. }
  apply Z.eqb_neq in H204. now rewrite H204, Hbody.
Qed.

Lemma gateway_reports_request_errors_witness :
  fst (_make_cal_request (Some "k") no_service "event-types" "GET" None None (initial []))
  = Ok (error_envelope "Request error: connection refused").
Proof.
  apply (gateway_reports_request_errors "k" no_service "event-types" "GET" None (initial [])
           "connection refused"); [discriminate | left; reflexivity].
Defined.

(** X4.  A response that is not an HTTP error is answered with the fixed
    message when its status is 204, whatever its body, and otherwise with
    the JSON value of its body, unchanged; statuses of 600 and above count
    as successes. *)
Theorem gateway_shapes_successes (key : string) (service : remote)
    (endpoint method : string) (json_data : option value) (st : state) (r : response) :
  let result := fst (_make_cal_request (Some key) service endpoint method None json_data st) in
  key <> EmptyString ->
  service (requests_of (log st)) (api_request key method endpoint json_data) = inl r ->
  status_code r < 400 \/ 600 <= status_code r ->
  (status_code r = 204 ->
   result = Ok (VDict [("message", VStr "Operation successful, no content returned.")]))
  /\ (forall v, status_code r <> 204 -> json_body r = Decoded v -> result = Ok v).
Proof.
  intros result Hkey Hanswer Hstatus. unfold result.
  rewrite make_cal_request_fresh by assumption. cbn [fst].
  rewrite Hanswer. unfold normalize.
  assert ((400 <=? status_code r) && (status_code r <? 600) = false) as ->.
  { apply andb_false_iff. destruct Hstatus; [left; now apply Z.leb_gt | right; now apply Z.ltb_ge]. }
  split.
  - intros ->. reflexivity.
  - intros v H204 Hbody. apply Z.eqb_neq in H204. now rewrite H204, Hbody.
Qed.

Lemma gateway_shapes_successes_witness :
  fst (_make_cal_request (Some "k") (scripted [json_response 600 (VList [VInt 1])])
         "slots" "GET" None None (initial []))
  = Ok (VList [VInt 1]).
Proof.
  destruct (gateway_shapes_successes "k" (scripted [json_response 600 (VList [VInt 1])])
              "slots" "GET" None (initial [])
              {| status_code := 600; text := EmptyString; json_body := Decoded (VList [VInt 1]) |})
    as [_ Hbody]; [discriminate | reflexivity | right; cbn; lia |].
  apply Hbody; [discriminate | reflexivity].
Defined.

(** ** More on Cancel, Book, Create and the slots query *)

(** X5.  Cancel sends one DELETE for the booking and reports success, with
    the id in the message, whenever the gateway's answer holds no [error]:
    so also for a 204 without content. *)
Theorem cancel_reports_success (key : string) (service : remote) (h : list pydict)
    (booking_id : Z) (answer : value) :
  let rq := api_request key "DELETE" ("bookings/" +:+ str_of_int booking_id) None in
  key <> EmptyString ->
  normalize (service [] rq) = Ok answer ->
  py_in "error" answer = Ok false ->
  cancel_cal_event (Some key) service booking_id (initial h)
  = (Ok (dumps (VDict [("status", VStr "success");
                       ("message", VStr ("Event with ID " +:+ str_of_int booking_id
                                         +:+ " cancelled successfully."))])),
     {| heap := h ++ [[("apiKey", VStr key)]];
        log := [cancel_invocation booking_id; Http rq] |}).
Proof.
  intros rq Hkey Hanswer Hin.
  rewrite cancel_cal_event_run by assumption.
  cbn [initial heap log requests_of app]. fold rq. now rewrite Hanswer, Hin.
Qed.

Lemma cancel_reports_success_witness :
  cancel_cal_event (Some "k") (scripted [text_response 204 EmptyString]) 42 (initial [])
  = (Ok (dumps (VDict [("status", VStr "success");
                       ("message", VStr "Event with ID 42 cancelled successfully.")])),
     {| heap := [[("apiKey", VStr "k")]];
        log := [cancel_invocation 42; Http (api_request "k" "DELETE" "bookings/42" None)] |}).
Proof.
  apply (cancel_reports_success "k" (scripted [text_response 204 EmptyString]) [] 42
           (VDict [("message", VStr "Operation successful, no content returned.")]));
    [discriminate | reflexivity | reflexivity].
Defined.

(** X6.  When the gateway's answer to the DELETE is an object with an
    [error] entry, Cancel returns that object as it is, whatever else it
    holds, one DELETE having gone out. *)
Theorem cancel_propagates_errors (key : string) (service : remote) (h : list pydict)
    (booking_id : Z) (answer : value) :
  let rq := api_request key "DELETE" ("bookings/" +:+ str_of_int booking_id) None in
  key <> EmptyString ->
  normalize (service [] rq) = Ok answer ->
  is_error_envelope answer = true ->
  cancel_cal_event (Some key) service booking_id (initial h)
  = (Ok (dumps answer),
     {| heap := h ++ [[("apiKey", VStr key)]];
        log := [cancel_invocation booking_id; Http rq] |}).
Proof.
  intros rq Hkey Hanswer Henvelope.
  rewrite cancel_cal_event_run by assumption.
  cbn [initial heap log requests_of app]. fold rq. rewrite Hanswer.
  destruct answer as [| | | | | | kvs]; try discriminate Henvelope.
  cbn [is_error_envelope] in Henvelope. cbn [py_in]. now rewrite Henvelope.
Qed.

Lemma cancel_propagates_errors_witness :
  cancel_cal_event (Some "k") booking_not_found 99 (initial [])
  = (Ok (dumps (error_envelope "HTTP error: 404 - Not found")),
     {| heap := [[("apiKey", VStr "k")]];
        log := [cancel_invocation 99; Http (api_request "k" "DELETE" "bookings/99" None)] |}).
Proof.
  apply (cancel_propagates_errors "k" booking_not_found [] 99
           (error_envelope "HTTP error: 404 - Not found"));
    [discriminate | reflexivity | reflexivity].
Defined.

(** X7.  When the body of the answer to the DELETE is a JSON null, boolean
    or number, [in] is not defined on it: Cancel raises [TypeError], after
    the DELETE has gone out. *)
Theorem cancel_raises_on_scalar_answer (key : string) (service : remote) (h : list pydict)
    (booking_id : Z) (answer : value) :
  let rq := api_request key "DELETE" ("bookings/" +:+ str_of_int booking_id) None in
  key <> EmptyString ->
  normalize (service [] rq) = Ok answer ->
  is_scalar answer = true ->
  cancel_cal_event (Some key) service booking_id (initial h)
  = (Raise TypeError,
     {| heap := h ++ [[("apiKey", VStr key)]];
        log := [cancel_invocation booking_id; Http rq] |}).
Proof.
  intros rq Hkey Hanswer Hscalar.
  rewrite cancel_cal_event_run by assumption.
  cbn [initial heap log requests_of app]. fold rq. rewrite Hanswer.
  destruct answer; try discriminate Hscalar; reflexivity.
Qed.

Lemma cancel_raises_on_scalar_answer_witness :
  cancel_cal_event (Some "k") (scripted [json_response 200 VNone]) 42 (initial [])
  = (Raise TypeError,
     {| heap := [[("apiKey", VStr "k")]];
        log := [cancel_invocation 42; Http (api_request "k" "DELETE" "bookings/42" None)] |}).
Proof.
  apply (cancel_raises_on_scalar_answer "k" (scripted [json_response 200 VNone]) [] 42 VNone);
    [discriminate | reflexivity | reflexivity].
Defined.

(** X8.  Book sends one POST to [bookings] and hands the gateway's answer
    on as it is, error envelope or not (and an exception that leaves the
    gateway leaves Book).  The body puts the attendee under
    [responses], the title and description under [metadata], and names the
    time zone [America/Los_Angeles] whatever offset the two timestamps
    carry. *)
Theorem book_posts_and_passes_through (key : string) (service : remote) (h : list pydict)
    (event_type_id : value) (start_time end_time : string)
    (email name title description : value) :
  let payload := book_payload event_type_id start_time end_time email name title description in
  let rq := api_request key "POST" "bookings" (Some payload) in
  key <> EmptyString ->
  book_cal_event (Some key) service event_type_id start_time end_time email name title
                 description (initial h)
  = (passed_on (normalize (service [] rq)),
     {| heap := h ++ [[("apiKey", VStr key)]];
        log := [book_invocation event_type_id start_time end_time email name title description;
                Http rq] |})
  /\ field "timeZone" payload = VStr "America/Los_Angeles"
  /\ field "start" payload = VStr start_time
  /\ field "end" payload = VStr end_time
  /\ field "eventTypeId" payload = event_type_id
  /\ field "email" (field "responses" payload) = email
  /\ field "name" (field "responses" payload) = name
  /\ field "title" (field "metadata" payload) = title
  /\ field "description" (field "metadata" payload) = description.
Proof.
  intros payload rq Hkey.
  rewrite book_cal_event_run by assumption.
  repeat split.
Qed.

Lemma book_posts_and_passes_through_witness :
  fst (book_cal_event (Some "k") (scripted [text_response 409 "Slot taken"]) (VInt 5)
         "2024-06-15T10:00:00+02:00" "2024-06-15T11:00:00+02:00"
         (VStr "a@b.com") (VStr "Alice") (VStr "Sync") (VStr EmptyString) (initial []))
  = Ok (dumps (error_envelope "HTTP error: 409 - Slot taken")).
Proof.
  destruct (book_posts_and_passes_through "k" (scripted [text_response 409 "Slot taken"]) []
              (VInt 5) "2024-06-15T10:00:00+02:00" "2024-06-15T11:00:00+02:00"
              (VStr "a@b.com") (VStr "Alice") (VStr "Sync") (VStr EmptyString))
    as [Hrun _]; [discriminate |].
  rewrite Hrun. reflexivity.
Defined.

(** X9.  Create sends one POST to [event-types] whose body holds the five
    arguments under [title], [slug], [length], [description] and [hidden],
    and hands the gateway's answer on as it is (and an exception that leaves
    the gateway leaves Create). *)
Theorem create_posts_and_passes_through (key : string) (service : remote) (h : list pydict)
    (title slug : string) (length : Z) (description : string) (hidden : bool) :
  let rq := api_request key "POST" "event-types"
              (Some (create_payload title slug length description hidden)) in
  key <> EmptyString ->
  create_cal_event_type (Some key) service title slug length description hidden (initial h)
  = (passed_on (normalize (service [] rq)),
     {| heap := h ++ [[("apiKey", VStr key)]];
        log := [Invoke "create_cal_event_type"
                  [VStr title; VStr slug; VInt length; VStr description; VBool hidden];
                Http rq] |}).
Proof.
  intros rq Hkey.
  unfold create_cal_event_type, tool, _get_cal_api_key, CAL_API_KEY_ENV, initial.
  rewrite run_bind. cbn [record heap log app].
  rewrite (truthy_str key Hkey). cbn [negb].
  rewrite run_bind, make_cal_request_fresh by assumption.
  cbn [heap log requests_of app]. unfold rq, create_payload.
  destruct (normalize _); reflexivity.
Qed.

Lemma create_posts_and_passes_through_witness :
  fst (create_cal_event_type (Some "k")
         (scripted [json_response 200 (VDict [("event_type", VDict [("id", VInt 7)])])])
         "30 Minute Meeting" "30min-meeting" 30 EmptyString false (initial []))
  = Ok (dumps (VDict [("event_type", VDict [("id", VInt 7)])])).
Proof.
  rewrite (create_posts_and_passes_through "k"
             (scripted [json_response 200 (VDict [("event_type", VDict [("id", VInt 7)])])])
             [] "30 Minute Meeting" "30min-meeting" 30 EmptyString false); [reflexivity |].
  discriminate.
Defined.

(** ** More on dates *)

Lemma is_digit_between_range (lo hi : nat) (c : ascii) :
  is_digit_between lo hi c = true ->
  Z.of_nat lo <= digit c <= Z.of_nat hi.
Proof.
  unfold is_digit_between, digit. intros H.
  apply andb_true_iff in H as [Hlo Hhi].
  apply Nat.leb_le in Hlo. apply Nat.leb_le in Hhi. lia.
Qed.

Lemma is_digit_range (c : ascii) : is_digit c = true -> 0 <= digit c <= 9.
Proof.
  unfold is_digit, digit. intros H.
  apply andb_true_iff in H as [Hlo Hhi].
  apply Nat.leb_le in Hlo. apply Nat.leb_le in Hhi. lia.
Qed.

Lemma match_year_range (l rest : list ascii) (y : Z) :
  match_year l = Some (y, rest) -> 0 <= y <= 9999.
Proof.
  unfold match_year.
  destruct l as [| a [| b [| c [| d l]]]]; try discriminate.
  destruct (is_digit a) eqn:Ha; [| discriminate].
  destruct (is_digit b) eqn:Hb; [| discriminate].
  destruct (is_digit c) eqn:Hc; [| discriminate].
  destruct (is_digit d) eqn:Hd; [| discriminate].
  cbn [andb]. intros H. injection H as <- _.
  apply is_digit_range in Ha, Hb, Hc, Hd. lia.
Qed.

Lemma match_month_dash_range (l rest : list ascii) (m : Z) :
  match_month_dash l = Some (m, rest) -> 1 <= m <= 12.
Proof.
  unfold match_month_dash. intros H.
  repeat match type of H with
         | context [match ?x with _ => _ end] =>
             lazymatch x with
             | context [match _ with _ => _ end] => fail
             | _ => destruct x eqn:?
             end
         end; try discriminate H; injection H as <- _.
  all: repeat match goal with
         | H : _ || _ = true |- _ => apply orb_true_iff in H as [H | H]
         | H : _ && _ = true |- _ => apply andb_true_iff in H as [? ?]
         | H : Ascii.eqb _ _ = true |- _ => apply Ascii.eqb_eq in H; subst
         | H : is_digit_between _ _ _ = true |- _ => apply is_digit_between_range in H
         end.
  all: change (digit "1") with 1 in *; change (digit "0") with 0 in *; lia.
Qed.

(** Whatever text [strptime] accepts under ['%Y-%m-%d'], the date it yields
    is a day of the calendar: a year from 1 to 9999, a month from 1 to 12, a
    day the month has in that year. *)
Lemma strptime_yields_calendar_dates (s : string) (d : date) :
  strptime_ymd s = Ok d -> calendar_date d.
Proof.
  unfold strptime_ymd, calendar_date.
  destruct (match_year (list_ascii_of_string s)) as [[y l1] |] eqn:Hy; [| discriminate].
  destruct l1 as [| dash l1]; [discriminate |].
  destruct (Ascii.eqb_spec dash "-"%char) as [-> | Hdash].
  - destruct (match_month_dash l1) as [[m l2] |] eqn:Hm; [| discriminate].
    destruct (match_day l2) as [[dd [| c l3]] |] eqn:Hd; try discriminate.
    destruct (1 <=? y) eqn:H1; [| discriminate].
    destruct (1 <=? dd) eqn:H2; [| discriminate].
    destruct (dd <=? days_in_month y m) eqn:H3; [| discriminate].
    cbn [andb]. intros H. injection H as <-. cbn [year month day].
    apply match_year_range in Hy. apply match_month_dash_range in Hm.
    apply Z.leb_le in H1, H2, H3. lia.
  - intros H. exfalso.
    destruct dash as [[] [] [] [] [] [] [] []]; try discriminate H.
    now apply Hdash.
Qed.

Lemma list_ascii_of_append (a b : string) :
  list_ascii_of_string (a +:+ b) = list_ascii_of_string a ++ list_ascii_of_string b.
Proof. induction a as [| c a IH]; simpl; [reflexivity | now rewrite IH]. Qed.

Lemma in_range (lo len : nat) (z : Z) :
  Z.of_nat lo <= z < Z.of_nat lo + Z.of_nat len -> In z (map Z.of_nat (seq lo len)).
Proof.
  intros H. replace z with (Z.of_nat (Z.to_nat z)) by lia.
  apply in_map, in_seq. lia.
Qed.

Lemma years_print_back :
  forallb (fun y => match match_year (list_ascii_of_string (pad4 y)) with
                    | Some (y', []) => y' =? y
                    | _ => false
                    end) (map Z.of_nat (seq 1 9999)) = true.
Proof. vm_compute. reflexivity. Qed.

Lemma days_print_back :
  forallb (fun d => match match_day (list_ascii_of_string (pad2 d)) with
                    | Some (d', []) => d' =? d
                    | _ => false
                    end) (map Z.of_nat (seq 1 31)) = true.
Proof. vm_compute. reflexivity. Qed.

Lemma pad4_year (y : Z) (rest : list ascii) :
  1 <= y <= 9999 ->
  match_year (list_ascii_of_string (pad4 y) ++ rest) = Some (y, rest).
Proof.
  intros Hy.
  assert (Hin : In y (map Z.of_nat (seq 1 9999))).
  { apply in_range. replace (Z.of_nat 9999) with 9999 by (vm_compute; reflexivity). lia. }
  pose proof (proj1 (forallb_forall _ _) years_print_back y Hin) as H.
  cbv beta in H.
  destruct (list_ascii_of_string (pad4 y)) as [| a [| b [| c [| d [| e l]]]]];
    cbn [match_year app] in *; try discriminate H.
  - destruct (is_digit a && is_digit b && is_digit c && is_digit d); [| discriminate H].
    apply Z.eqb_eq in H. now rewrite H.
  - destruct (is_digit a && is_digit b && is_digit c && is_digit d); discriminate H.
Qed.

Lemma pad2_month (m : Z) (rest : list ascii) :
  1 <= m <= 12 ->
  match_month_dash (list_ascii_of_string (pad2 m) ++ "-"%char :: rest) = Some (m, rest).
Proof.
  intros Hm.
  assert (m = 1 \/ m = 2 \/ m = 3 \/ m = 4 \/ m = 5 \/ m = 6 \/ m = 7 \/ m = 8 \/ m = 9
          \/ m = 10 \/ m = 11 \/ m = 12) as Hcases by lia.
  repeat destruct Hcases as [-> | Hcases]; try reflexivity.
  subst m. reflexivity.
Qed.

Lemma pad2_day (d : Z) :
  1 <= d <= 31 ->
  match_day (list_ascii_of_string (pad2 d)) = Some (d, []).
Proof.
  intros Hd.
  pose proof (proj1 (forallb_forall _ _) days_print_back d (in_range 1 31 d ltac:(lia))) as H.
  cbv beta in H.
  destruct (match_day (list_ascii_of_string (pad2 d))) as [[d' [| c l]] |];
    try discriminate H.
  apply Z.eqb_eq in H. now rewrite H.
Qed.

Lemma days_in_month_bound (y m : Z) : 28 <= days_in_month y m <= 31.
Proof.
  unfold days_in_month.
  destruct (m =? 2); [destruct (is_leap y); lia |].
  destruct ((m =? 4) || (m =? 6) || (m =? 9) || (m =? 11)); lia.
Qed.

(** Round trip: the ISO text of a day of the calendar parses back to that
    day. *)
Lemma strptime_isoformat (d : date) :
  calendar_date d -> strptime_ymd (isoformat d) = Ok d.
Proof.
  intros (Hy & Hm & Hd).
  pose proof (days_in_month_bound (year d) (month d)) as Hbound.
  unfold strptime_ymd, isoformat.
  rewrite list_ascii_of_append, pad4_year by assumption.
  change (list_ascii_of_string ("-" +:+ ?s)) with ("-"%char :: list_ascii_of_string s).
  cbv iota beta.
  rewrite list_ascii_of_append.
  change (list_ascii_of_string ("-" +:+ ?s)) with ("-"%char :: list_ascii_of_string s).
  rewrite pad2_month by assumption.
  rewrite pad2_day by lia.
  assert ((1 <=? year d) && (1 <=? day d) && (day d <=? days_in_month (year d) (month d))
          = true) as ->.
  { rewrite !andb_true_iff, !Z.leb_le. lia. }
  now destruct d.
Qed.

(** The two runs of the slots query with a credential. *)
Lemma get_available_slots_run_parsed key service h slug start_date_str end_date_str d1 d2 :
  key <> EmptyString ->
  strptime_ymd start_date_str = Ok d1 ->
  strptime_ymd end_date_str = Ok d2 ->
  get_available_slots (Some key) service slug start_date_str end_date_str (initial h)
  = (passed_on (normalize (service [] (slots_request key slug d1 d2))),
     {| heap := h ++ [slots_params key slug d1 d2];
        log := [Invoke "get_available_slots" [VStr slug; VStr start_date_str; VStr end_date_str];
                Http (slots_request key slug d1 d2)] |}).
Proof.
  intros Hkey Hstart Hend.
  unfold get_available_slots, tool, _get_cal_api_key, CAL_API_KEY_ENV, initial.
  rewrite run_bind. cbn [record heap log app].
  rewrite (truthy_str key Hkey). cbn [negb].
  rewrite run_bind. unfold try_except, bind at 1 2, lift, ret.
  rewrite Hstart, Hend.
  rewrite run_bind. cbn [new_dict heap log].
  rewrite run_bind.
  rewrite (make_cal_request_supplied key service "slots" "GET" (length h) None
             {| heap := h ++ [_]; log := _ |} _ Hkey (heap_fresh_lookup h _)).
  cbn [heap log requests_of dict_setitem String.eqb Ascii.eqb Bool.eqb].
  rewrite heap_fresh_insert.
  change (slots_request key slug d1 d2) with
    {| rq_method := "GET"; rq_url := CAL_API_BASE_URL +:+ "slots";
       rq_params := slots_params key slug d1 d2; rq_json := None;
       rq_headers := [("Content-Type", "application/json")] |}.
  unfold slots_params.
  destruct (normalize _); reflexivity.
Qed.

Lemma get_available_slots_run_rejected key service h slug start_date_str end_date_str :
  key <> EmptyString ->
  parses start_date_str && parses end_date_str = false ->
  get_available_slots (Some key) service slug start_date_str end_date_str (initial h)
  = (Ok (dumps (error_envelope invalid_date_message)),
     {| heap := h;
        log := [Invoke "get_available_slots"
                  [VStr slug; VStr start_date_str; VStr end_date_str]] |}).
Proof.
  intros Hkey Hdates.
  unfold get_available_slots, tool, _get_cal_api_key, CAL_API_KEY_ENV, initial.
  rewrite run_bind. cbn [record heap log app].
  rewrite (truthy_str key Hkey). cbn [negb].
  unfold bind, try_except, lift, ret.
  unfold parses in Hdates.
  destruct (strptime_ymd start_date_str) as [d1 | e1] eqn:H1.
  - destruct (strptime_ymd end_date_str) as [d2 | e2] eqn:H2; [discriminate Hdates |].
    apply strptime_ymd_raises in H2 as ->. reflexivity.
  - apply strptime_ymd_raises in H1 as ->. reflexivity.
Qed.

(** X10.  When both texts parse, the slots query is one GET to [slots]
    whose parameters are the slug, the two dates in ISO form and the
    credential; the gateway's answer is handed on as it is (and an exception
    that leaves the gateway leaves the query).  The two dates are not
    compared: an end before the start is sent as well. *)
Theorem get_available_slots_queries (key : string) (service : remote) (h : list pydict)
    (event_type_slug start_date_str end_date_str : string) (start_date end_date : date) :
  let rq := slots_request key event_type_slug start_date end_date in
  key <> EmptyString ->
  strptime_ymd start_date_str = Ok start_date ->
  strptime_ymd end_date_str = Ok end_date ->
  get_available_slots (Some key) service event_type_slug start_date_str end_date_str
                      (initial h)
  = (passed_on (normalize (service [] rq)),
     {| heap := h ++ [slots_params key event_type_slug start_date end_date];
        log := [Invoke "get_available_slots"
                  [VStr event_type_slug; VStr start_date_str; VStr end_date_str];
                Http rq] |}).
Proof.
  intros rq Hkey Hstart Hend.
  unfold get_available_slots, tool, _get_cal_api_key, CAL_API_KEY_ENV, initial.
  rewrite run_bind. cbn [record heap log app].
  rewrite (truthy_str key Hkey). cbn [negb].
  rewrite run_bind. unfold try_except, bind at 1 2, lift, ret.
  rewrite Hstart, Hend.
  rewrite run_bind. cbn [new_dict heap log].
  rewrite run_bind.
  rewrite (make_cal_request_supplied key service "slots" "GET" (length h) None
             {| heap := h ++ [_]; log := _ |} _ Hkey (heap_fresh_lookup h _)).
  cbn [heap log requests_of dict_setitem String.eqb Ascii.eqb Bool.eqb].
  rewrite heap_fresh_insert. unfold rq, slots_request, slots_params.
  destruct (normalize _); reflexivity.
Qed.

Lemma get_available_slots_queries_witness :
  get_available_slots (Some "k") (scripted [json_response 200 (VDict [("slots", VDict [])])])
    "30min" "2024-6-9" "2024-06-01" (initial [])
  = (Ok (dumps (VDict [("slots", VDict [])])),
     {| heap := [[("eventType", VStr "30min");
                  ("startDate", VStr "2024-06-09");
                  ("endDate", VStr "2024-06-01");
                  ("apiKey", VStr "k")]];
        log := [Invoke "get_available_slots" [VStr "30min"; VStr "2024-6-9"; VStr "2024-06-01"];
                Http (slots_request "k" "30min"
                        {| year := 2024; month := 6; day := 9 |}
                        {| year := 2024; month := 6; day := 1 |})] |}).
Proof.
  apply (get_available_slots_queries "k"
           (scripted [json_response 200 (VDict [("slots", VDict [])])]) []
           "30min" "2024-6-9" "2024-06-01"
           {| year := 2024; month := 6; day := 9 |} {| year := 2024; month := 6; day := 1 |});
    [discriminate | reflexivity | reflexivity].
Defined.

(** ** What holds of every operation *)

(** Without a credential: the envelope, no request, no dictionary. *)
Lemma absent_credential_run (env : option string) (service : remote) (op : operation)
    (h : list pydict) :
  credential_present env = false ->
  fst (run_operation env service op (initial h))
  = Ok (dumps (error_envelope (configuration_message op)))
  /\ requests_of (log (snd (run_operation env service op (initial h)))) = []
  /\ heap (snd (run_operation env service op (initial h))) = h.
Proof.
  intros Henv. apply credential_absent_cases in Henv.
  destruct op; cbn [run_operation];
    unfold list_event_types, get_available_slots, book_cal_event, list_cal_events,
      cancel_cal_event, reschedule_cal_event, create_cal_event_type, tool,
      _get_cal_api_key, initial;
    rewrite run_bind; cbn [record heap log app]; rewrite Henv;
    repeat split.
Qed.



Lemma pure_ret {A} (a : A) : pure (ret a).
Proof. intros st. reflexivity. Qed.

Lemma pure_lift {A} (o : outcome A) : pure (lift o).
Proof. intros st. reflexivity. Qed.

Lemma pure_bind {A B} (m : M A) (k : A -> M B) :
  pure m -> (forall a, pure (k a)) -> pure (bind m k).
Proof.
  intros Hm Hk st. unfold bind. specialize (Hm st).
  destruct (m st) as [[a | e] st1]; cbn [snd] in Hm; subst st1; [apply Hk | reflexivity].
Qed.

Lemma pure_mapM {A B} (f : A -> M B) (l : list A) :
  (forall x, pure (f x)) -> pure (mapM f l).
Proof.
  intros Hf. induction l as [| x l IH]; cbn [mapM]; [apply pure_ret |].
  apply pure_bind; [apply Hf | intros y].
  apply pure_bind; [exact IH | intros ys; apply pure_ret].
Qed.

Lemma pure_filterM {A} (f : A -> M bool) (l : list A) :
  (forall x, pure (f x)) -> pure (filterM f l).
Proof.
  intros Hf. induction l as [| x l IH]; cbn [filterM]; [apply pure_ret |].
  apply pure_bind; [apply Hf | intros keep].
  apply pure_bind; [exact IH | intros ys; apply pure_ret].
Qed.

(** Programs put together from [ret], [lift], binds, loops and tests. *)
Ltac show_pure :=
  repeat first
    [ apply pure_ret
    | apply pure_lift
    | apply pure_bind; [| intros ?]
    | apply pure_mapM; intros ?
    | apply pure_filterM; intros ?
    | match goal with
      | |- pure (if ?b then _ else _) => destruct b
      | |- pure (match ?x with _ => _ end) => destruct x
      end ].

Lemma pure_some_attendee_matches (email : string) (attendees : list value) :
  pure (some_attendee_matches email attendees).
Proof.
  induction attendees as [| a rest IH]; cbn [some_attendee_matches]; [apply pure_ret |].
  apply pure_bind; [apply pure_lift | intros e].
  apply pure_bind; [apply pure_lift | intros l].
  destruct (String.eqb l (lower email)); [apply pure_ret | exact IH].
Qed.

Lemma pure_summarize_booking (booking : value) : pure (summarize_booking booking).
Proof. unfold summarize_booking. show_pure. Qed.

(** After the gateway has answered, a continuation that is pure leaves the
    state the gateway left. *)
Lemma snd_after_gateway {A} key service endpoint method json_data (k : value -> M A) st :
  key <> EmptyString ->
  (forall v, pure (k v)) ->
  snd (bind (_make_cal_request (Some key) service endpoint method None json_data) k st)
  = {| heap := heap st ++ [[("apiKey", VStr key)]];
       log := log st ++ [Http (api_request key method endpoint json_data)] |}.
Proof.
  intros Hkey Hk. rewrite run_bind, make_cal_request_fresh by assumption.
  destruct (normalize _); [apply Hk | reflexivity].
Qed.

Lemma list_event_types_state key service h :
  key <> EmptyString ->
  snd (list_event_types (Some key) service (initial h))
  = {| heap := h ++ [[("apiKey", VStr key)]];
       log := [Invoke "list_event_types" [];
               Http (api_request key "GET" "event-types" None)] |}.
Proof.
  intros Hkey.
  unfold list_event_types, tool, _get_cal_api_key, CAL_API_KEY_ENV, initial.
  rewrite run_bind. cbn [record heap log app].
  rewrite (truthy_str key Hkey). cbn [negb].
  rewrite snd_after_gateway; [reflexivity | assumption |].
  intros v. show_pure.
Qed.

Lemma list_cal_events_state key service email h :
  key <> EmptyString ->
  snd (list_cal_events (Some key) service email (initial h))
  = {| heap := h ++ [[("apiKey", VStr key)]];
       log := [Invoke "list_cal_events" [option_str email];
               Http (api_request key "GET" "bookings" None)] |}.
Proof.
  intros Hkey.
  unfold list_cal_events, tool, _get_cal_api_key, CAL_API_KEY_ENV, initial.
  rewrite run_bind. cbn [record heap log app].
  rewrite (truthy_str key Hkey). cbn [negb].
  rewrite snd_after_gateway; [reflexivity | assumption |].
  intros v. show_pure; first [apply pure_some_attendee_matches | apply pure_summarize_booking].
Qed.

Lemma in_order_api_request key method endpoint json_data :
  in_order (Some key) (api_request key method endpoint json_data).
Proof. repeat split. apply prefix_append. Qed.

Lemma in_order_slots_request key slug d1 d2 :
  in_order (Some key) (slots_request key slug d1 d2).
Proof. repeat split. Qed.

(** X13.  For every operation, every credential and every behaviour of the
    service: each request that goes out is addressed to the base URL, says
    it carries JSON and has the credential as [apiKey]; at most one request
    goes out, or three for a reschedule; and the dictionaries that were
    there before the call are where and what they were. *)
Theorem operations_send_requests_in_order (env : option string) (service : remote)
    (op : operation) (h : list pydict) :
  let st' := snd (run_operation env service op (initial h)) in
  Forall (in_order env) (requests_of (log st'))
  /\ (length (requests_of (log st'))
      <= match op with RescheduleCalEvent _ _ _ => 3 | _ => 1 end)%nat
  /\ (forall l d, h !! l = Some d -> heap st' !! l = Some d).
Proof.
  intros st'. unfold st'. clear st'.
  destruct (credential_present env) eqn:Henv.
  - apply credential_present_key in Henv as (key & -> & Hkey).
    assert (Hone : forall rq fresh st,
              in_order (Some key) rq ->
              requests_of (log st) = [rq] -> heap st = h ++ fresh ->
              Forall (in_order (Some key)) (requests_of (log st))
              /\ (length (requests_of (log st)) <= 1)%nat
              /\ (forall l d, h !! l = Some d -> heap st !! l = Some d)).
    { intros rq fresh st Hrq -> ->. repeat split.
      - now constructor.
      - cbn. lia.
      - intros l d Hl. now apply lookup_app_l_Some. }
    destruct op; cbn [run_operation].
    + rewrite list_event_types_state by assumption.
      eapply Hone; [apply in_order_api_request | reflexivity | reflexivity].
    + destruct (parses start_date_str && parses end_date_str) eqn:Hdates.
      * apply andb_true_iff in Hdates as [H1 H2]. unfold parses in H1, H2.
        destruct (strptime_ymd start_date_str) as [d1 |] eqn:Hd1; [| discriminate H1].
        destruct (strptime_ymd end_date_str) as [d2 |] eqn:Hd2; [| discriminate H2].
        rewrite (get_available_slots_run_parsed key service h _ _ _ d1 d2) by assumption.
        eapply Hone; [apply (in_order_slots_request key event_type_slug d1 d2) | reflexivity
                     | reflexivity].
      * rewrite get_available_slots_run_rejected by assumption.
        cbn. repeat split; [constructor | lia | auto].
    + rewrite book_cal_event_run by assumption.
      eapply Hone; [apply in_order_api_request | reflexivity | reflexivity].
    + rewrite list_cal_events_state by assumption.
      eapply Hone; [apply in_order_api_request | reflexivity | reflexivity].
    + rewrite cancel_cal_event_run by assumption.
      eapply Hone; [apply in_order_api_request | reflexivity | reflexivity].
    + destruct (reschedule_with_credential key service h booking_id new_start_time_iso
                  new_end_time_iso Hkey) as [-> _].
      repeat split;
        [ repeat constructor; apply prefix_append
        | cbn; lia
        | intros l d Hl; now apply lookup_app_l_Some ].
    + rewrite create_cal_event_type_run by assumption.
      eapply Hone; [apply in_order_api_request | reflexivity | reflexivity].
  - destruct (absent_credential_run env service op h Henv) as (_ & -> & ->).
    repeat split; [constructor | destruct op; cbn; lia | auto].
Qed.

(** X14.  On every run of a reschedule, whatever the credential, the
    arguments and the service, the requests sent are an initial part of:
    the GET of the booking, the DELETE of the booking, a POST to
    [bookings].  No POST goes out before the DELETE, and nothing goes out
    after the POST. *)
Theorem reschedule_request_order (env : option string) (service : remote) (h : list pydict)
    (booking_id : Z) (new_start new_end : string) :
  let st' := snd (reschedule_cal_event env service booking_id new_start new_end (initial h)) in
  let booking_url := CAL_API_BASE_URL +:+ "bookings/" +:+ str_of_int booking_id in
  exists n : nat,
    map (fun rq => (rq_method rq, rq_url rq)) (requests_of (log st'))
    = firstn n [("GET", booking_url);
                ("DELETE", booking_url);
                ("POST", CAL_API_BASE_URL +:+ "bookings")].
Proof.
  intros st' booking_url. unfold st'. clear st'.
  destruct (credential_present env) eqn:Henv.
  - apply credential_present_key in Henv as (key & -> & Hkey).
    destruct (reschedule_with_credential key service h booking_id new_start new_end Hkey)
      as [-> _].
    exists 1%nat. reflexivity.
  - destruct (absent_credential_run env service
                (RescheduleCalEvent booking_id new_start new_end) h Henv) as (_ & Hsent & _).
    cbn [run_operation] in Hsent. rewrite Hsent. exists 0%nat. reflexivity.
Qed.

(** ** More on the reschedule *)

(** X15.  A fetched booking with no attendees (the entry absent, null or
    empty), or whose first attendee has no e-mail or no name, is answered
    with the missing-information envelope; only the fetch has gone out. *)
Theorem reschedule_missing_attendee (key : string) (service : remote) (h : list pydict)
    (booking_id : Z) (new_start new_end : string) (fetched booking : pydict) :
  let fetch := api_request key "GET" ("bookings/" +:+ str_of_int booking_id) None in
  key <> EmptyString ->
  normalize (service [] fetch) = Ok (VDict fetched) ->
  dict_has "error" fetched = false ->
  dict_lookup "booking" fetched = Some (VDict booking) ->
  booking <> [] ->
  truthy (dict_get "attendees" VNone booking) = false
  \/ (exists attendee others,
        dict_lookup "attendees" booking = Some (VList (VDict attendee :: others))
        /\ (truthy (dict_get "email" VNone attendee) = false
            \/ truthy (dict_get "name" VNone attendee) = false)) ->
  reschedule_cal_event (Some key) service booking_id new_start new_end (initial h)
  = (Ok (dumps (error_envelope missing_information_message)),
     {| heap := h ++ [[("apiKey", VStr key)]];
        log := [reschedule_invocation booking_id new_start new_end; Http fetch] |}).
Proof.
  intros fetch Hkey Hfetch Herr Hbooking Hnonempty Hmissing.
  assert (Hb : truthy (VDict booking) = true) by (destruct booking; [contradiction | reflexivity]).
  enter_reschedule Hkey. fold fetch. rewrite Hfetch.
  unfold first_attendee, bind, lift, ret. cbn [py_in py_get py_getitem].
  unfold dict_get at 1. rewrite Herr, Hbooking, Hb. cbn [negb py_get].
  destruct Hmissing as [Hnone | (attendee & others & Hatt & Hfield)].
  - rewrite Hnone. now rewrite !orb_true_r.
  - assert (dict_get "attendees" VNone booking = VList (VDict attendee :: others)) as ->
      by (unfold dict_get; now rewrite Hatt).
    cbn [truthy py_first py_get].
    destruct Hfield as [-> | ->]; cbn [negb]; now rewrite ?orb_true_r.
Qed.

Lemma reschedule_missing_attendee_witness :
  reschedule_cal_event (Some "k")
    (scripted [json_response 200
                 (VDict [("booking", VDict [("id", VInt 42); ("eventTypeId", VInt 5);
                                            ("attendees", VList [])])])])
    42 "2024-06-15T10:00:00Z" "2024-06-15T11:00:00Z" (initial [])
  = (Ok (dumps (error_envelope missing_information_message)),
     {| heap := [[("apiKey", VStr "k")]];
        log := [reschedule_invocation 42 "2024-06-15T10:00:00Z" "2024-06-15T11:00:00Z";
                Http (api_request "k" "GET" "bookings/42" None)] |}).
Proof.
  apply (reschedule_missing_attendee "k" _ [] 42 "2024-06-15T10:00:00Z" "2024-06-15T11:00:00Z"
           [("booking", VDict [("id", VInt 42); ("eventTypeId", VInt 5);
                               ("attendees", VList [])])]
           [("id", VInt 42); ("eventTypeId", VInt 5); ("attendees", VList [])]);
    first [discriminate | reflexivity | left; reflexivity].
Defined.

(** ** More on the two listings *)

Lemma event_type_summaries_run (ets : list value) (st : state) :
  forallb is_object ets = true ->
  mapM (fun et =>
          id_ <- lift (py_get et "id" VNone) ;;
          title <- lift (py_get et "title" VNone) ;;
          slug <- lift (py_get et "slug" VNone) ;;
          ret (VDict [("id", id_); ("title", title); ("slug", slug)])) ets st
  = (Ok (map event_type_summary ets), st).
Proof.
  induction ets as [| et rest IH]; intros Hobj; [reflexivity |].
  cbn [forallb] in Hobj. apply andb_true_iff in Hobj as [Het Hrest].
  destruct et as [| | | | | | kvs]; try discriminate Het.
  cbn [mapM map]. rewrite run_bind.
  unfold bind at 1 2 3, lift at 1 2 3, ret at 1. cbn [py_get].
  rewrite run_bind, (IH Hrest). reflexivity.
Qed.

Lemma event_type_summaries_raise (ets : list value) (st : state) :
  forallb is_object ets = false ->
  mapM (fun et =>
          id_ <- lift (py_get et "id" VNone) ;;
          title <- lift (py_get et "title" VNone) ;;
          slug <- lift (py_get et "slug" VNone) ;;
          ret (VDict [("id", id_); ("title", title); ("slug", slug)])) ets st
  = (Raise AttributeError, st).
Proof.
  induction ets as [| et rest IH]; intros Hobj; [discriminate Hobj |].
  cbn [forallb] in Hobj. cbn [mapM]. rewrite run_bind.
  destruct et as [| | | | | | kvs]; try reflexivity.
  cbn [is_object andb] in Hobj.
  unfold bind at 1 2 3, lift at 1 2 3, ret at 1. cbn [py_get].
  rewrite run_bind, (IH Hobj). reflexivity.
Qed.

(** X16.  On an answer that is an object without [error], whose
    [eventTypes], if there, is a sequence of objects, the listing of event
    types returns each entry reduced to [id], [title] and [slug], in order;
    an entry's missing field is null, and a missing [eventTypes] is the empty
    sequence. *)
Theorem list_event_types_projects (key : string) (service : remote) (h : list pydict)
    (answer : pydict) (event_types : list value) :
  let rq := api_request key "GET" "event-types" None in
  key <> EmptyString ->
  normalize (service [] rq) = Ok (VDict answer) ->
  dict_has "error" answer = false ->
  dict_get "eventTypes" (VList []) answer = VList event_types ->
  forallb is_object event_types = true ->
  list_event_types (Some key) service (initial h)
  = (Ok (dumps (VDict [("eventTypes", VList (map event_type_summary event_types))])),
     {| heap := h ++ [[("apiKey", VStr key)]];
        log := [Invoke "list_event_types" []; Http rq] |}).
Proof.
  intros rq Hkey Hanswer Herr Hets Hobj.
  unfold list_event_types, tool, _get_cal_api_key, CAL_API_KEY_ENV, initial.
  rewrite run_bind. cbn [record heap log app].
  rewrite (truthy_str key Hkey). cbn [negb].
  rewrite run_bind, make_cal_request_fresh by assumption.
  cbn [heap log requests_of app]. fold rq. rewrite Hanswer.
  rewrite run_bind. unfold lift at 1. cbn [py_in]. rewrite Herr.
  rewrite run_bind. unfold lift at 1. cbn [py_get]. rewrite Hets.
  rewrite run_bind. unfold lift at 1. cbn [py_iter].
  rewrite run_bind, event_type_summaries_run by assumption. reflexivity.
Qed.

Lemma list_event_types_projects_witness :
  list_event_types (Some "k")
    (scripted [json_response 200
                 (VDict [("eventTypes",
                          VList [VDict [("id", VInt 5); ("title", VStr "30 Minute Meeting");
                                        ("slug", VStr "30min"); ("length", VInt 30)];
                                 VDict [("id", VInt 6)]])])])
    (initial [])
  = (Ok (dumps (VDict [("eventTypes",
                        VList [VDict [("id", VInt 5); ("title", VStr "30 Minute Meeting");
                                      ("slug", VStr "30min")];
                               VDict [("id", VInt 6); ("title", VNone); ("slug", VNone)]])])),
     {| heap := [[("apiKey", VStr "k")]];
        log := [Invoke "list_event_types" [];
                Http (api_request "k" "GET" "event-types" None)] |}).
Proof.
  apply (list_event_types_projects "k" _ []
           [("eventTypes",
             VList [VDict [("id", VInt 5); ("title", VStr "30 Minute Meeting");
                           ("slug", VStr "30min"); ("length", VInt 30)];
                    VDict [("id", VInt 6)]])]
           [VDict [("id", VInt 5); ("title", VStr "30 Minute Meeting");
                   ("slug", VStr "30min"); ("length", VInt 30)];
            VDict [("id", VInt 6)]]);
    first [discriminate | reflexivity].
Defined.

(** X17.  When the gateway's answer is an error envelope, each of the two
    listings hands it on unchanged, with no projection and, for the
    bookings, whatever the e-mail filter. *)
Theorem listings_propagate_errors (key : string) (service : remote) (h : list pydict)
    (email : option string) (event_types bookings : value) :
  key <> EmptyString ->
  (normalize (service [] (api_request key "GET" "event-types" None)) = Ok event_types ->
   is_error_envelope event_types = true ->
   fst (list_event_types (Some key) service (initial h)) = Ok (dumps event_types))
  /\ (normalize (service [] (api_request key "GET" "bookings" None)) = Ok bookings ->
      is_error_envelope bookings = true ->
      fst (list_cal_events (Some key) service email (initial h)) = Ok (dumps bookings)).
Proof.
  intros Hkey. split; intros Hanswer Herr.
  - unfold list_event_types, tool, _get_cal_api_key, CAL_API_KEY_ENV, initial.
    rewrite run_bind. cbn [record heap log app].
    rewrite (truthy_str key Hkey). cbn [negb].
    rewrite run_bind, make_cal_request_fresh by assumption.
    cbn [heap log requests_of app]. rewrite Hanswer.
    destruct event_types as [| | | | | | kvs]; try discriminate Herr.
    cbn [is_error_envelope] in Herr.
    rewrite run_bind. unfold lift at 1. cbn [py_in]. now rewrite Herr.
  - unfold list_cal_events, tool, _get_cal_api_key, CAL_API_KEY_ENV, initial.
    rewrite run_bind. cbn [record heap log app].
    rewrite (truthy_str key Hkey). cbn [negb].
    rewrite run_bind, make_cal_request_fresh by assumption.
    cbn [heap log requests_of app]. rewrite Hanswer.
    destruct bookings as [| | | | | | kvs]; try discriminate Herr.
    cbn [is_error_envelope] in Herr.
    rewrite run_bind. unfold lift at 1. cbn [py_in]. now rewrite Herr.
Qed.

Lemma listings_propagate_errors_witness :
  fst (list_event_types (Some "k") booking_not_found (initial []))
  = Ok (dumps (error_envelope "HTTP error: 404 - Not found"))
  /\ fst (list_cal_events (Some "k") booking_not_found (Some "a@b.com") (initial []))
     = Ok (dumps (error_envelope "HTTP error: 404 - Not found")).
Proof.
  destruct (listings_propagate_errors "k" booking_not_found [] (Some "a@b.com")
              (error_envelope "HTTP error: 404 - Not found")
              (error_envelope "HTTP error: 404 - Not found"))
    as [Htypes Hbookings]; [discriminate |].
  split; [apply Htypes | apply Hbookings]; reflexivity.
Defined.

(** X18.  When some entry of [eventTypes] is not an object (a null, a
    number, a text, a sequence), the listing of event types raises
    [AttributeError] instead of returning a JSON text. *)
Theorem list_event_types_raises_on_non_object (key : string) (service : remote)
    (h : list pydict) (answer : pydict) (event_types : list value) :
  let rq := api_request key "GET" "event-types" None in
  key <> EmptyString ->
  normalize (service [] rq) = Ok (VDict answer) ->
  dict_has "error" answer = false ->
  dict_get "eventTypes" (VList []) answer = VList event_types ->
  forallb is_object event_types = false ->
  fst (list_event_types (Some key) service (initial h)) = Raise AttributeError.
Proof.
  intros rq Hkey Hanswer Herr Hets Hobj.
  unfold list_event_types, tool, _get_cal_api_key, CAL_API_KEY_ENV, initial.
  rewrite run_bind. cbn [record heap log app].
  rewrite (truthy_str key Hkey). cbn [negb].
  rewrite run_bind, make_cal_request_fresh by assumption.
  cbn [heap log requests_of app]. fold rq. rewrite Hanswer.
  rewrite run_bind. unfold lift at 1. cbn [py_in]. rewrite Herr.
  rewrite run_bind. unfold lift at 1. cbn [py_get]. rewrite Hets.
  rewrite run_bind. unfold lift at 1. cbn [py_iter].
  rewrite run_bind, event_type_summaries_raise by assumption. reflexivity.
Qed.

Lemma list_event_types_raises_on_non_object_witness :
  fst (list_event_types (Some "k")
         (scripted [json_response 200
                      (VDict [("eventTypes", VList [VDict [("id", VInt 5)]; VNone])])])
         (initial []))
  = Raise AttributeError.
Proof.
  apply (list_event_types_raises_on_non_object "k" _ []
           [("eventTypes", VList [VDict [("id", VInt 5)]; VNone])]
           [VDict [("id", VInt 5)]; VNone]);
    first [discriminate | reflexivity].
Defined.

(** ** The page and the operations *)

(** X19.  When [CAL_API_KEY] is not in the environment of the process, the
    operations have no credential, whatever the [.env] file holds: [app.py]
    is imported, and reads the variable, before [load_dotenv()] runs.  The
    page reads the variable after it, so with a key in the [.env] file the
    page takes the key as loaded and hands every chat input to the agent,
    while each operation the agent calls returns the configuration-error
    envelope without a request.  With the variable in the environment the
    two readings agree. *)
Theorem operations_miss_dotenv_key (dotenv : option string) (service : remote)
    (op : operation) (h : list pydict) :
  let started := page_start None dotenv in
  let run := run_operation (app_CAL_API_KEY_ENV started) service op (initial h) in
  credential_present dotenv = true ->
  credential_present (page_CAL_API_KEY started) = true
  /\ (forall agent messages query,
        query <> EmptyString ->
        fst (chat_turn (page_CAL_API_KEY started) agent messages (Some query))
        = messages ++ [HumanMessage query;
                       AIMessage match agent (messages ++ [HumanMessage query]) with
                                 | inl output => output
                                 | inr e => agent_error_reply e
                                 end])
  /\ fst run = Ok (dumps (error_envelope (configuration_message op)))
  /\ requests_of (log (snd run)) = []
  /\ (forall v, page_start (Some v) dotenv
                = {| app_CAL_API_KEY_ENV := Some v; page_CAL_API_KEY := Some v |}).
Proof.
  intros started run Hdotenv.
  split; [exact Hdotenv |]. split.
  - intros agent messages query Hquery.
    unfold chat_turn. cbn [page_CAL_API_KEY started page_start load_dotenv].
    cbn [option_str py_str]. rewrite (truthy_str query Hquery).
    unfold credential_present in Hdotenv. rewrite Hdotenv. cbn [negb].
    destruct (agent (messages ++ [HumanMessage query])); cbn [fst];
      now rewrite <- app_assoc.
  - destruct (absent_credential_run None service op h eq_refl) as (Hresult & Hsent & _).
    repeat split; assumption.
Qed.

Lemma operations_miss_dotenv_key_witness :
  fst (run_operation (app_CAL_API_KEY_ENV (page_start None (Some "cal_live_123")))
         no_service ListEventTypes (initial []))
  = Ok (dumps (error_envelope "Cal.com API Key is not set. Please set it in the Streamlit UI."))
  /\ credential_present (page_CAL_API_KEY (page_start None (Some "cal_live_123"))) = true.
Proof.
  destruct (operations_miss_dotenv_key (Some "cal_live_123") no_service ListEventTypes [])
    as (Hpage & _ & Hresult & _); [reflexivity |].
  split; [exact Hresult | exact Hpage].
Defined.

Lemma chat_turn_messages key agent messages query :
  exists added,
    fst (chat_turn key agent messages query) = messages ++ added
    /\ (truthy (option_str query) = false -> added = [])
    /\ (truthy (option_str query) = true ->
        exists reply, added = [HumanMessage (py_str (option_str query)); AIMessage reply]
                      /\ (credential_present key = false -> reply = missing_key_reply)).
Proof.
  unfold chat_turn, credential_present.
  destruct (truthy (option_str query)).
  - destruct (truthy (option_str key)); cbn [negb].
    + destruct (agent _) as [output | e]; cbn [fst]; rewrite <- app_assoc;
        eexists; (split; [reflexivity | split; [discriminate | intros _]]);
        eexists; (split; [reflexivity | discriminate]).
    + cbn [fst]. rewrite <- app_assoc.
      eexists. split; [reflexivity | split; [discriminate | intros _]].
      eexists. split; reflexivity.
  - exists []. cbn [fst]. rewrite app_nil_r.
    split; [reflexivity | split; [reflexivity | discriminate]].
Qed.

Lemma takes_turns_app (assistant_next : bool) (l1 l2 : list message) :
  takes_turns assistant_next (l1 ++ l2)
  = takes_turns assistant_next l1
    && takes_turns (if Nat.even (length l1) then assistant_next else negb assistant_next) l2.
Proof.
  revert assistant_next. induction l1 as [| m l1 IH]; intros assistant_next.
  - reflexivity.
  - cbn [app takes_turns length]. rewrite IH, Nat.even_succ, <- Nat.negb_even.
    destruct (Nat.even (length l1)); cbn [negb]; rewrite ?negb_involutive, andb_assoc;
      reflexivity.
Qed.

Lemma conversation_from key agent queries messages :
  let kept := List.filter (fun q => truthy (option_str q)) queries in
  let after := fold_left (fun messages query => fst (chat_turn key agent messages query))
                         queries messages in
  takes_turns true messages = true ->
  Nat.even (length messages) = false ->
  takes_turns true after = true
  /\ Nat.even (length after) = false
  /\ length after = (length messages + 2 * length kept)%nat
  /\ (exists added, after = messages ++ added)
  /\ (credential_present key = false ->
      forall agent', fold_left (fun messages query => fst (chat_turn key agent' messages query))
                               queries messages = after).
Proof.
  revert messages. induction queries as [| q queries IH]; intros messages kept after Hturns Hodd.
  - repeat split; try assumption.
    + cbn. lia.
    + exists []. subst after. cbn. now rewrite app_nil_r.
  - subst kept after. cbn [fold_left List.filter].
    destruct (chat_turn_messages key agent messages q) as (added & Hfst & Hnone & Hsome).
    rewrite Hfst.
    assert (Hinv : takes_turns true (messages ++ added) = true
                   /\ Nat.even (length (messages ++ added)) = false
                   /\ length (messages ++ added)
                      = (length messages + if truthy (option_str q) then 2 else 0)%nat).
    { destruct (truthy (option_str q)).
      - destruct (Hsome eq_refl) as (reply & -> & _).
        rewrite takes_turns_app, Hturns, Hodd, length_app.
        cbn [length]. split; [reflexivity | split; [| lia]].
        rewrite Nat.add_comm. cbn [Nat.add]. now rewrite !Nat.even_succ_succ.
      - rewrite (Hnone eq_refl), app_nil_r. repeat split; [assumption | assumption | lia]. }
    destruct Hinv as (Hturns' & Hodd' & Hlen').
    destruct (IH (messages ++ added) Hturns' Hodd') as (H1 & H2 & H3 & (more & H4) & H5).
    repeat split; try assumption.
    + rewrite H3, Hlen'. destruct (truthy (option_str q)); cbn [length]; lia.
    + exists (added ++ more). now rewrite H4, app_assoc.
    + intros Hkey agent'.
      destruct (chat_turn_messages key agent' messages q) as (added' & Hfst' & Hnone' & Hsome').
      rewrite Hfst'.
      assert (added' = added) as ->.
      { destruct (truthy (option_str q)).
        - destruct (Hsome eq_refl) as (reply & -> & Hreply).
          destruct (Hsome' eq_refl) as (reply' & -> & Hreply').
          now rewrite (Hreply Hkey), (Hreply' Hkey).
        - now rewrite (Hnone eq_refl), (Hnone' eq_refl). }
      now apply H5.
Qed.

(** X20.  Through any series of chat inputs, with any agent, the
    conversation kept in the session starts with the assistant's greeting and
    then alternates between the user and the assistant: each non-empty input
    adds the user's message and exactly one assistant message, an empty input
    adds nothing, and what was said before stays as it was.  Without a key on
    the page the agent has no part in it. *)
Theorem conversation_takes_turns (key : option string) (agent : list message -> string + string)
    (queries more : list (option string)) :
  let said := conversation key agent queries in
  takes_turns true said = true
  /\ length said
     = (1 + 2 * length (List.filter (fun q => truthy (option_str q)) queries))%nat
  /\ (exists added, conversation key agent (queries ++ more) = said ++ added)
  /\ (credential_present key = false ->
      forall agent', conversation key agent' queries = said).
Proof.
  intros said. subst said. unfold conversation.
  destruct (conversation_from key agent queries first_messages eq_refl eq_refl)
    as (Hturns & Hodd & Hlen & _ & Hagent).
  repeat split; try assumption.
  rewrite fold_left_app.
  destruct (conversation_from key agent more _ Hturns Hodd) as (_ & _ & _ & Hkept & _).
  exact Hkept.
Qed.

(** ** The dates of the slots query, normalised *)

(** X11.  Whatever two texts the slots query accepts, the dates it sends
    are days of the calendar, and the query is the same as the one made with
    those dates written in ISO form: the same request goes out, the same text
    comes back.  Normalising is idempotent. *)
Theorem get_available_slots_normalizes (key : string) (service : remote) (h : list pydict)
    (event_type_slug start_date_str end_date_str : string) (start_date end_date : date) :
  let given := get_available_slots (Some key) service event_type_slug
                 start_date_str end_date_str (initial h) in
  let normalised := get_available_slots (Some key) service event_type_slug
                      (isoformat start_date) (isoformat end_date) (initial h) in
  key <> EmptyString ->
  strptime_ymd start_date_str = Ok start_date ->
  strptime_ymd end_date_str = Ok end_date ->
  calendar_date start_date
  /\ calendar_date end_date
  /\ requests_of (log (snd given))
     = [slots_request key event_type_slug start_date end_date]
  /\ requests_of (log (snd normalised)) = requests_of (log (snd given))
  /\ fst normalised = fst given.
Proof.
  intros given normalised Hkey Hstart Hend.
  pose proof (strptime_yields_calendar_dates _ _ Hstart) as Hd1.
  pose proof (strptime_yields_calendar_dates _ _ Hend) as Hd2.
  unfold given, normalised.
  rewrite (get_available_slots_run_parsed key service h _ _ _ _ _ Hkey Hstart Hend).
  rewrite (get_available_slots_run_parsed key service h _ _ _ _ _ Hkey
             (strptime_isoformat _ Hd1) (strptime_isoformat _ Hd2)).
  split; [exact Hd1 | split; [exact Hd2 | repeat split]].
Qed.

Lemma get_available_slots_normalizes_witness :
  requests_of (log (snd (get_available_slots (Some "k") no_service "30min"
                           "2024-06-09" "2024-06-09" (initial []))))
  = requests_of (log (snd (get_available_slots (Some "k") no_service "30min"
                             "2024-6-9" "2024-06- 9" (initial [])))).
Proof.
  destruct (get_available_slots_normalizes "k" no_service [] "30min" "2024-6-9" "2024-06- 9"
              {| year := 2024; month := 6; day := 9 |}
              {| year := 2024; month := 6; day := 9 |})
    as (_ & _ & _ & Hsame & _); [discriminate | reflexivity | reflexivity |].
  exact Hsame.
Defined.
